(** * CodeBunny: the review-comment curation script [data/get_top_pr.py]

    A shallow embedding of the script and the properties of its quality
    filter, record builder, pull-request crawl and failure isolation.

    The script talks to three collaborators that are not part of the
    repository: the process environment (the credential), the source
    control host reached through a client library, and the JSON
    serialiser.  The first two are gathered in a [World] value, the
    serialiser and the host's page size are section variables.  Everything
    the script itself decides is a definition below.

    What can raise is a request (the authentication, the repository
    lookup, the page of pull requests, the listing of review comments) and
    three attribute reads: [pr.merged], which the client answers by
    fetching the pull request, [pr.user.login], and the two counters read
    from [comment.reactions].  The other attributes ([pr.number],
    [comment.body], [comment.user.login], [comment.diff_hunk]) are plain
    values. *)

From Stdlib Require Import List String Ascii ZArith Bool Arith Lia.
Import ListNotations.
Open Scope string_scope.
Open Scope nat_scope.

Set Warnings "-register-all".

(** ** Python values that the script builds and serialises *)

Inductive PyVal : Type :=
| PNone
| PStr (s : string)
| PList (l : list PyVal)
| PDict (d : list (string * PyVal)).

(** Truth value of a string-or-None, as [if x:] and [x and ...] see it. *)
Definition truthy (o : option string) : bool :=
  match o with
  | None => false
  | Some s => negb (String.eqb s EmptyString)
  end.

Definition py_of_body (o : option string) : PyVal :=
  match o with
  | None => PNone
  | Some s => PStr s
  end.

(** ** Exceptions *)

(** [except GithubException as ge] looks at [ge.status]; every other
    exception is caught by [except Exception]. *)
Inductive Exn : Type :=
| GithubException (status : Z)
| OtherException (what : string).

Inductive result (A : Type) : Type :=
| Ok (a : A)
| Raise (e : Exn).
Arguments Ok {A} a.
Arguments Raise {A} e.

(** ** What the host exposes *)

(** [comment.reactions].  Lines 87-88 read its attributes [total_count]
    and [plus_one].  [Counts] is an object that has the two attributes.
    [RawDict] is a dict from reaction names to counts, which is what the
    client the script imports hands out: a dict has neither attribute,
    and reading one raises AttributeError. *)
Inductive Reactions : Type :=
| Counts (total plus : Z)
| RawDict (d : list (string * Z)).

Definition attribute_error : Exn := OtherException "AttributeError".

Definition total_count (r : Reactions) : result Z :=
  match r with
  | Counts total _ => Ok total
  | RawDict _ => Raise attribute_error
  end.

Definition plus_one (r : Reactions) : result Z :=
  match r with
  | Counts _ plus => Ok plus
  | RawDict _ => Raise attribute_error
  end.

Record Comment : Type := {
  body : option string;          (* nullable *)
  user : string;                 (* comment.user.login *)
  reactions : Reactions;
  diff_hunk : string
}.

(** A listing that is consumed by iteration: the items it yields, in the
    order of the host, and then the exception that ends it, if one does
    (a page request can fail after earlier pages were delivered). *)
Record Listing (A : Type) : Type := {
  yielded : list A;
  raised : option Exn
}.
Arguments yielded {A} l.
Arguments raised {A} l.

(** [merged] and [pr_user] are what reading [pr.merged] and
    [pr.user.login] gives: the value, or the exception the read raises. *)
Record PullRequest : Type := {
  merged : result bool;
  pr_user : result string;       (* pr.user.login *)
  number : Z;
  get_review_comments : Listing Comment
}.

(** A repository handle.  [closed_pulls] is what
    [get_pulls(state="closed", sort="updated", direction="desc")] lists:
    every closed pull request of the repository, most recently updated
    first.  [pulls_failure] is the exception a page request raises, if it
    does. *)
Record Repository : Type := {
  closed_pulls : list PullRequest;
  pulls_failure : option Exn
}.

Record World : Type := {
  GITHUB_PAT : option string;          (* os.getenv("GITHUB_PAT") *)
  get_user_login : result string;      (* Github(token), g.get_user().login *)
  get_repo : string -> result Repository
}.

(** ** Configuration constants *)

Definition TARGET_REPOS : list string :=
  [ "rust-lang/rust"; "microsoft/vscode"; "kubernetes/kubernetes";
    "pytorch/pytorch" ].

Definition PRS_TO_CHECK_PER_REPO : nat := 500.

Definition MIN_REACTIONS : Z := 2.

Definition OUTPUT_FILE : string := "training_data.jsonl".

Definition system_prompt : string :=
  "You are a code analysis bot. Summarize the changes in this diff file in a concise, technical, bullet-point format.".

(** [time.sleep(0.1)], in milliseconds. *)
Definition SLEEP_MS : nat := 100.

Definition newline : string := String "010"%char EmptyString.

(** ** The record builder *)

Definition create_training_example
    (system_prompt user_content assistant_content : PyVal) : PyVal :=
  PDict [ ("messages",
           PList [ PDict [ ("role", PStr "system"); ("content", system_prompt) ];
                   PDict [ ("role", PStr "user"); ("content", user_content) ];
                   PDict [ ("role", PStr "assistant");
                           ("content", assistant_content) ] ]) ].

(** Reading a built record back: the messages under ["messages"], and the
    role and content of one message. *)
Fixpoint dict_get (k : string) (d : list (string * PyVal)) : option PyVal :=
  match d with
  | [] => None
  | (k', v) :: d' => if String.eqb k k' then Some v else dict_get k d'
  end.

Definition messages_of (example : PyVal) : list PyVal :=
  match example with
  | PDict d =>
      match dict_get "messages" d with
      | Some (PList l) => l
      | _ => []
      end
  | _ => []
  end.

Definition field_of (k : string) (message : PyVal) : option PyVal :=
  match message with
  | PDict d => dict_get k d
  | _ => None
  end.

(** ** The quality filter (the expression bound to [is_high_quality]) *)

(** The truth value of the expression, or the exception its evaluation
    raises.  [and] and [or] evaluate from left to right and stop as soon as
    the value is decided, so the counters are read only when the first
    three tests pass, and [plus_one] only when [total_count] is too
    small. *)
Definition is_high_quality (comment : Comment) (pr_author : string)
    : result bool :=
  match body comment with
  | None => Ok false
  | Some b =>
      if negb (String.eqb b EmptyString)
         && (50 <? String.length b)
         && negb (String.eqb (user comment) pr_author)
      then
        match total_count (reactions comment) with
        | Raise e => Raise e
        | Ok total =>
            if (total >=? MIN_REACTIONS)%Z then Ok true
            else
              match plus_one (reactions comment) with
              | Raise e => Raise e
              | Ok plus => Ok (plus >=? MIN_REACTIONS)%Z
              end
        end
      else Ok false
  end.

(** Reaction weight, in the words of the glossary; a dict has none that
    the script can read. *)
Definition reaction_weight (comment : Comment) : option Z :=
  match reactions comment with
  | Counts total plus => Some (Z.max total plus)
  | RawDict _ => None
  end.

(** ** Observable effects *)

Inductive Msg : Type :=
| MsgFatalNoToken
| MsgCreatePat
| MsgAuthenticated (login : string)
| MsgAuthError (e : Exn)
| MsgScraping (repo_name : string)
| MsgSkippingPR (pr_number : Z)
| MsgApiErrorPR (pr_number : Z) (e : Exn)
| MsgErrorPR (pr_number : Z) (e : Exn)
| MsgRepoNotFound (repo_name : string)
| MsgApiErrorRepo (repo_name : string) (e : Exn)
| MsgErrorRepo (repo_name : string) (e : Exn)
| MsgCurationComplete
| MsgTotal (n : nat)
| MsgSavedTo (path : string).

Inductive Event : Type :=
| Print (m : Msg)
| Sleep (ms : nat)
| OpenW (path : string)          (* open(path, "w", encoding="utf-8") *)
| Write (chunk : string)         (* f.write(chunk) *)
| Close.

(** The state the script threads: everything it did so far, in order, and
    the local counter. *)
Record State : Type := {
  trace : list Event;
  total_examples_found : nat
}.

Definition init : State := {| trace := []; total_examples_found := 0 |}.

(** ** A state-and-exception monad

    The state survives a raised exception, as the effects of a Python
    block survive when its [except] clause runs. *)

Definition M (A : Type) : Type := State -> result A * State.

Definition ret {A} (a : A) : M A := fun s => (Ok a, s).

Definition bind {A B} (m : M A) (f : A -> M B) : M B :=
  fun s =>
    match m s with
    | (Ok a, s') => f a s'
    | (Raise e, s') => (Raise e, s')
    end.

Definition raise {A} (e : Exn) : M A := fun s => (Raise e, s).

Definition lift {A} (r : result A) : M A := fun s => (r, s).

Definition try_except {A} (m : M A) (handler : Exn -> M A) : M A :=
  fun s =>
    match m s with
    | (Ok a, s') => (Ok a, s')
    | (Raise e, s') => handler e s'
    end.

Declare Scope py_scope.
Delimit Scope py_scope with py.
Notation "x <- m ;; k" := (bind m (fun x => k))
  (at level 61, m at next level, right associativity) : py_scope.
Notation "m ;; k" := (bind m (fun _ => k))
  (at level 61, right associativity) : py_scope.
Open Scope py_scope.

Definition emit (e : Event) : M unit :=
  fun s => (Ok tt, {| trace := trace s ++ [e];
                      total_examples_found := total_examples_found s |}).

Definition print (m : Msg) : M unit := emit (Print m).

Definition sleep (ms : nat) : M unit := emit (Sleep ms).

Definition set_total (n : nat) : M unit :=
  fun s => (Ok tt, {| trace := trace s; total_examples_found := n |}).

Definition incr_total : M unit :=
  fun s => (Ok tt, {| trace := trace s;
                      total_examples_found := total_examples_found s + 1 |}).

Definition get_total : M nat := fun s => (Ok (total_examples_found s), s).

Fixpoint for_each {A} (l : list A) (loop_body : A -> M unit) : M unit :=
  match l with
  | [] => ret tt
  | x :: l' => loop_body x ;; for_each l' loop_body
  end.

(** [for x in listing]: the items, then the exception if there is one. *)
Definition for_listing {A} (l : Listing A) (loop_body : A -> M unit) : M unit :=
  for_each (yielded l) loop_body ;;
  match raised l with
  | Some e => raise e
  | None => ret tt
  end.

(** ** The script *)

Section Script.

(** [json.dumps], and the number of items the host puts on one page. *)
Variable json_dumps : PyVal -> string.
Variable per_page : nat.

(** [prs.get_page(n)] *)
Definition get_page (repo : Repository) (n : nat) : result (list PullRequest) :=
  match pulls_failure repo with
  | Some e => Raise e
  | None => Ok (firstn per_page (skipn (n * per_page) (closed_pulls repo)))
  end.

(** [prs.get_page(0)[:PRS_TO_CHECK_PER_REPO]]: the pull requests the loop
    of line 72 visits. *)
Definition crawl (repo : Repository) : result (list PullRequest) :=
  match get_page repo 0 with
  | Ok page => Ok (firstn PRS_TO_CHECK_PER_REPO page)
  | Raise e => Raise e
  end.

(** Lines 82-105: one turn of [for comment in comments]. *)
Definition process_comment (pr_author : string) (comment : Comment) : M unit :=
  high_quality <- lift (is_high_quality comment pr_author) ;;
  if high_quality then
    let user_content := PStr (diff_hunk comment) in
    let assistant_content := py_of_body (body comment) in
    let example :=
      create_training_example (PStr system_prompt) user_content
        assistant_content in
    emit (Write (json_dumps example ++ newline)) ;;
    incr_total
  else ret tt.

(** Lines 107-113. *)
Definition pr_handler (pr : PullRequest) (e : Exn) : M unit :=
  match e with
  | GithubException status =>
      if (status =? 404)%Z then print (MsgSkippingPR (number pr))
      else print (MsgApiErrorPR (number pr) e)
  | OtherException _ => print (MsgErrorPR (number pr) e)
  end.

(** Lines 73-116: one turn of the loop over pull requests. *)
Definition process_pr (pr : PullRequest) : M unit :=
  merged_flag <- lift (merged pr) ;;
  if negb merged_flag then ret tt     (* continue *)
  else
    pr_author <- lift (pr_user pr) ;;
    try_except
      (let comments := get_review_comments pr in
       for_listing comments (process_comment pr_author))
      (pr_handler pr) ;;
    sleep SLEEP_MS.

(** Lines 118-124. *)
Definition repo_handler (repo_name : string) (e : Exn) : M unit :=
  match e with
  | GithubException status =>
      if (status =? 404)%Z then print (MsgRepoNotFound repo_name)
      else print (MsgApiErrorRepo repo_name e)
  | OtherException _ => print (MsgErrorRepo repo_name e)
  end.

(** Lines 64-124: one turn of the loop over target repositories. *)
Definition process_repo (W : World) (repo_name : string) : M unit :=
  try_except
    (repo <- lift (get_repo W repo_name) ;;
     print (MsgScraping repo_name) ;;
     prs <- lift (crawl repo) ;;
     for_each prs process_pr)
    (repo_handler repo_name).

(** Lines 51-57: [true] when the client authenticated, [false] when the
    [except] clause returned from [main]. *)
Definition authenticate (W : World) : M bool :=
  try_except
    (login <- lift (get_user_login W) ;;
     print (MsgAuthenticated login) ;;
     ret true)
    (fun e => print (MsgAuthError e) ;; ret false).

(** Lines 61-128, over a list of targets. *)
Definition curate (W : World) (targets : list string) : M unit :=
  emit (OpenW OUTPUT_FILE) ;;
  set_total 0 ;;
  for_each targets (process_repo W) ;;
  emit Close ;;
  print MsgCurationComplete ;;
  n <- get_total ;;
  print (MsgTotal n) ;;
  print (MsgSavedTo OUTPUT_FILE).

Definition main (W : World) : M unit :=
  let github_token := GITHUB_PAT W in
  if negb (truthy github_token) then
    print MsgFatalNoToken ;;
    print MsgCreatePat
  else
    authenticated <- authenticate W ;;
    if authenticated then curate W TARGET_REPOS else ret tt.

(** The events of a whole run. *)
Definition run (W : World) : list Event := trace (snd (main W init)).

End Script.

(** ** The output file

    Its content is [None] while the file does not exist, and otherwise the
    chunks written to it, oldest first.  [file_after] replays a trace on
    the content a previous run left. *)

Definition file_step (content : option (list string)) (e : Event)
    : option (list string) :=
  match e with
  | OpenW _ => Some []
  | Write chunk =>
      match content with
      | Some chunks => Some (chunks ++ [chunk])%list
      | None => None
      end
  | _ => content
  end.

Definition file_after (content : option (list string)) (t : list Event)
    : option (list string) :=
  fold_left file_step t content.

(** The chunks a trace writes and the delays it takes. *)
Fixpoint writes (t : list Event) : list string :=
  match t with
  | [] => []
  | Write chunk :: t' => chunk :: writes t'
  | _ :: t' => writes t'
  end.

Fixpoint sleeps (t : list Event) : list nat :=
  match t with
  | [] => []
  | Sleep ms :: t' => ms :: sleeps t'
  | _ :: t' => sleeps t'
  end.

(** ** What a pull request and a repository add to the trace *)

Section Effects.

Variable json_dumps : PyVal -> string.
Variable per_page : nat.

(** The line written for an accepted comment. *)
Definition chunk_of (comment : Comment) : string :=
  json_dumps
    (create_training_example (PStr system_prompt) (PStr (diff_hunk comment))
       (py_of_body (body comment)))
  ++ newline.

(** The comments accepted by the loop of line 81 before the filter raises
    on one, and the exception it raises there, if it does. *)
Fixpoint accepted (pr_author : string) (comments : list Comment)
    : list Comment :=
  match comments with
  | [] => []
  | c :: comments' =>
      match is_high_quality c pr_author with
      | Raise _ => []
      | Ok true => c :: accepted pr_author comments'
      | Ok false => accepted pr_author comments'
      end
  end.

Fixpoint filter_failure (pr_author : string) (comments : list Comment)
    : option Exn :=
  match comments with
  | [] => None
  | c :: comments' =>
      match is_high_quality c pr_author with
      | Raise e => Some e
      | Ok _ => filter_failure pr_author comments'
      end
  end.

Definition gold_chunks (pr_author : string) (comments : list Comment)
    : list string :=
  map chunk_of (accepted pr_author comments).

(** The exception that reaches the handler of lines 107-113: that of the
    filter if it raises on a yielded comment, else that of the listing. *)
Definition listing_failure (pr_author : string) (l : Listing Comment)
    : option Exn :=
  match filter_failure pr_author (yielded l) with
  | Some e => Some e
  | None => raised l
  end.

Definition pr_message (pr : PullRequest) (e : Exn) : Msg :=
  match e with
  | GithubException status =>
      if (status =? 404)%Z then MsgSkippingPR (number pr)
      else MsgApiErrorPR (number pr) e
  | OtherException _ => MsgErrorPR (number pr) e
  end.

Definition repo_message (repo_name : string) (e : Exn) : Msg :=
  match e with
  | GithubException status =>
      if (status =? 404)%Z then MsgRepoNotFound repo_name
      else MsgApiErrorRepo repo_name e
  | OtherException _ => MsgErrorRepo repo_name e
  end.

Definition failure_events (message : Exn -> Msg) (failure : option Exn)
    : list Event :=
  match failure with
  | Some e => [Print (message e)]
  | None => []
  end.

(** The exception that leaves the turn of a pull request: that of a read
    of lines 73 and 76, which stand before the [try]. *)
Definition pr_raises (pr : PullRequest) : option Exn :=
  match merged pr with
  | Raise e => Some e
  | Ok false => None
  | Ok true =>
      match pr_user pr with
      | Raise e => Some e
      | Ok _ => None
      end
  end.

Definition pr_events (pr : PullRequest) : list Event :=
  match merged pr, pr_user pr with
  | Ok true, Ok pr_author =>
      (map Write (gold_chunks pr_author (yielded (get_review_comments pr)))
       ++ failure_events (pr_message pr)
            (listing_failure pr_author (get_review_comments pr))
       ++ [Sleep SLEEP_MS])%list
  | _, _ => []
  end.

(** The pull requests of a sequence whose turn returns: those before the
    first one that raises; and the exception of that one. *)
Fixpoint completed (prs : list PullRequest) : list PullRequest :=
  match prs with
  | [] => []
  | pr :: prs' =>
      match pr_raises pr with
      | Some _ => []
      | None => pr :: completed prs'
      end
  end.

Fixpoint prs_failure (prs : list PullRequest) : option Exn :=
  match prs with
  | [] => None
  | pr :: prs' =>
      match pr_raises pr with
      | Some e => Some e
      | None => prs_failure prs'
      end
  end.

Definition repo_events (W : World) (repo_name : string) : list Event :=
  match get_repo W repo_name with
  | Raise e => [Print (repo_message repo_name e)]
  | Ok repo =>
      Print (MsgScraping repo_name)
      :: match crawl per_page repo with
         | Raise e => [Print (repo_message repo_name e)]
         | Ok prs =>
             (flat_map pr_events (completed prs)
              ++ failure_events (repo_message repo_name) (prs_failure prs))%list
         end
  end.

End Effects.

Definition outcome (failure : option Exn) : result unit :=
  match failure with
  | Some e => Raise e
  | None => Ok tt
  end.

Definition is_merged (pr : PullRequest) : bool :=
  match merged pr with
  | Ok true => true
  | _ => false
  end.

Definition is_unmerged (pr : PullRequest) : bool :=
  match merged pr with
  | Ok false => true
  | _ => false
  end.

Definition is_rejected (pr_author : string) (comment : Comment) : bool :=
  match is_high_quality comment pr_author with
  | Ok false => true
  | _ => false
  end.

(** A state with more events behind it; the counter follows the writes. *)
Definition add_events (evs : list Event) (s : State) : State :=
  {| trace := trace s ++ evs;
     total_examples_found := total_examples_found s + List.length (writes evs) |}.

(** ** Sample inputs *)

(** An unescaped rendering, enough for the examples. *)
Fixpoint sample_dumps (v : PyVal) : string :=
  match v with
  | PNone => "null"
  | PStr s => "'" ++ s ++ "'"
  | PList l => "[" ++ String.concat ", " (map sample_dumps l) ++ "]"
  | PDict d =>
      "{" ++ String.concat ", "
               (map (fun kv => match kv with
                               | (k, x) => "'" ++ k ++ "': " ++ sample_dumps x
                               end) d) ++ "}"
  end.

Definition body50 : string :=
  "01234567890123456789012345678901234567890123456789".

Definition body51 : string := body50 ++ "0".

Definition body80 : string :=
  body50 ++ "012345678901234567890123456789".

Definition comment_of (b : option string) (author : string) (total plus : Z)
    : Comment :=
  {| body := b; user := author;
     reactions := Counts total plus;
     diff_hunk := "@@ -1,2 +1,2 @@" |}.

(** Scenario A's comment: 80 characters, by bob, three reactions. *)
Definition gold_comment : Comment := comment_of (Some body80) "bob" 3 0.

(** The reactions of a comment as the imported client gives them. *)
Definition raw_reactions (total plus : Z) : Reactions :=
  RawDict [ ("total_count", total); ("+1", plus); ("-1", 0%Z);
            ("laugh", 0%Z); ("hooray", 0%Z); ("confused", 0%Z);
            ("heart", 0%Z); ("rocket", 0%Z); ("eyes", 0%Z) ].

(** 51 characters, by bob, two reactions that are both +1. *)
Definition raw_comment51 : Comment :=
  {| body := Some body51; user := "bob"; reactions := raw_reactions 2 2;
     diff_hunk := "@@ -1,2 +1,2 @@" |}.

(** Scenario A's comment with the client's reactions. *)
Definition raw_gold_comment : Comment :=
  {| body := Some body80; user := "bob"; reactions := raw_reactions 3 3;
     diff_hunk := "@@ -1,2 +1,2 @@" |}.

Definition all_yielded {A} (l : list A) : Listing A :=
  {| yielded := l; raised := None |}.

Definition not_found : Exn := GithubException 404.

Definition pr_merged : PullRequest :=
  {| merged := Ok true; pr_user := Ok "alice"; number := 7;
     get_review_comments := all_yielded [gold_comment] |}.

Definition pr_unmerged : PullRequest :=
  {| merged := Ok false; pr_user := Ok "alice"; number := 8;
     get_review_comments := all_yielded [gold_comment] |}.

Definition pr_deleted : PullRequest :=
  {| merged := Ok true; pr_user := Ok "alice"; number := 9;
     get_review_comments := {| yielded := []; raised := Some not_found |} |}.

Definition repo_of (prs : list PullRequest) : Repository :=
  {| closed_pulls := prs; pulls_failure := None |}.

(** A repository with 31 closed pull requests. *)
Definition repo31 : Repository := repo_of (repeat pr_merged 31).

(** A host on which only the second target can be opened. *)
Definition world_one_repo : World :=
  {| GITHUB_PAT := Some "ghp_token";
     get_user_login := Ok "curator";
     get_repo := fun name =>
       if String.eqb name "microsoft/vscode"
       then Ok (repo_of [pr_deleted; pr_unmerged; pr_merged])
       else Raise not_found |}.

(** A host that refuses the credential. *)
Definition world_bad_credential : World :=
  {| GITHUB_PAT := Some "ghp_expired";
     get_user_login := Raise (GithubException 401);
     get_repo := fun _ => Ok (repo_of [pr_merged]) |}.

(** No credential in the environment. *)
Definition world_no_credential : World :=
  {| GITHUB_PAT := None;
     get_user_login := Ok "curator";
     get_repo := fun _ => Ok (repo_of [pr_merged]) |}.

(** Scenario E: a pull request whose comments are gone, next to one with a
    qualifying comment. *)
Definition world_scenario_E : World :=
  {| GITHUB_PAT := Some "ghp_token";
     get_user_login := Ok "curator";
     get_repo := fun _ => Ok (repo_of [pr_deleted; pr_merged]) |}.

(** A pull request whose comment listing breaks with a server error after
    one qualifying comment was delivered. *)
Definition pr_broken : PullRequest :=
  {| merged := Ok true; pr_user := Ok "alice"; number := 10;
     get_review_comments :=
       {| yielded := [gold_comment];
          raised := Some (GithubException 502) |} |}.

(** Every repository lookup fails. *)
Definition world_no_repo : World :=
  {| GITHUB_PAT := Some "ghp_token";
     get_user_login := Ok "curator";
     get_repo := fun _ => Raise (OtherException "connection reset") |}.

(** A pull request whose merged flag cannot be read. *)
Definition pr_unreadable : PullRequest :=
  {| merged := Raise (GithubException 502); pr_user := Ok "alice";
     number := 11; get_review_comments := all_yielded [gold_comment] |}.

(** A failed read of the merged flag before a pull request with a
    qualifying comment. *)
Definition world_unreadable : World :=
  {| GITHUB_PAT := Some "ghp_token";
     get_user_login := Ok "curator";
     get_repo := fun _ => Ok (repo_of [pr_unreadable; pr_merged]) |}.

(** Scenario E with the client's reactions. *)
Definition pr_merged_raw : PullRequest :=
  {| merged := Ok true; pr_user := Ok "alice"; number := 12;
     get_review_comments := all_yielded [raw_gold_comment] |}.

Definition world_scenario_E_raw : World :=
  {| GITHUB_PAT := Some "ghp_token";
     get_user_login := Ok "curator";
     get_repo := fun _ => Ok (repo_of [pr_deleted; pr_merged_raw]) |}.

Definition is_open (e : Event) : bool :=
  match e with
  | OpenW _ => true
  | _ => false
  end.

(** ** What a run is expected to leave in the output *)

Section Expected.

Variable json_dumps : PyVal -> string.
Variable per_page : nat.

(** The lines of one pull request: those of the comments its listing
    yields and the filter accepts before it raises on one, in the order of
    the listing, when the pull request was merged. *)
Definition pr_chunks (pr : PullRequest) : list string :=
  match merged pr, pr_user pr with
  | Ok true, Ok pr_author =>
      gold_chunks json_dumps pr_author (yielded (get_review_comments pr))
  | _, _ => []
  end.

(** The pull requests whose turn is taken and returns for a target: those
    of the crawl, up to the first one whose flag or author cannot be read,
    when the lookup and the page request succeed; none otherwise. *)
Definition visited_prs (W : World) (repo_name : string) : list PullRequest :=
  match get_repo W repo_name with
  | Ok repo =>
      match crawl per_page repo with
      | Ok prs => completed prs
      | Raise _ => []
      end
  | Raise _ => []
  end.

Definition expected_chunks (W : World) : list string :=
  flat_map (fun repo_name => flat_map pr_chunks (visited_prs W repo_name))
    TARGET_REPOS.

End Expected.

Definition is_bracket (e : Event) : bool :=
  match e with
  | OpenW _ | Close => true
  | _ => false
  end.

(** A repository whose page request fails. *)
Definition repo_unlisted : Repository :=
  {| closed_pulls := [pr_merged]; pulls_failure := Some (GithubException 500) |}.

Definition world_unlisted : World :=
  {| GITHUB_PAT := Some "ghp_token";
     get_user_login := Ok "curator";
     get_repo := fun _ => Ok repo_unlisted |}.

(** [world_one_repo] with other repositories behind names that are not
    targets. *)
Definition world_one_repo_more : World :=
  {| GITHUB_PAT := Some "ghp_token";
     get_user_login := Ok "curator";
     get_repo := fun name =>
       if String.eqb name "microsoft/vscode"
       then Ok (repo_of [pr_deleted; pr_unmerged; pr_merged])
       else if String.eqb name "torvalds/linux"
       then Ok (repo_of [pr_merged])
       else Raise not_found |}.

(** A merged pull request whose listing yields a comment with an object
    for its reactions, then one with the client's dict, then another with
    an object. *)
Definition pr_mixed : PullRequest :=
  {| merged := Ok true; pr_user := Ok "alice"; number := 13;
     get_review_comments :=
       all_yielded [gold_comment; raw_gold_comment; gold_comment] |}.

(** * Properties *)

(** ** The quality filter *)

Lemma weight_ge_min (total plus : Z) :
  ((total >=? MIN_REACTIONS)%Z = true \/ (plus >=? MIN_REACTIONS)%Z = true)
  <-> (Z.max total plus >= 2)%Z.
Proof. unfold MIN_REACTIONS. rewrite !Z.geb_le. lia. Qed.

Lemma nonempty_string (b : string) :
  negb (String.eqb b EmptyString) = true <-> b <> EmptyString.
Proof.
  rewrite negb_true_iff.
  destruct (String.eqb_spec b EmptyString); split; congruence.
Qed.

Lemma differs_string (a b : string) :
  negb (String.eqb a b) = true <-> a <> b.
Proof.
  rewrite negb_true_iff.
  destruct (String.eqb_spec a b); split; congruence.
Qed.

(** The first three tests of the expression. *)
Lemma first_tests (b author pr_author : string) :
  negb (String.eqb b EmptyString) && (50 <? String.length b)
  && negb (String.eqb author pr_author) = true
  <-> b <> EmptyString /\ 50 < String.length b /\ author <> pr_author.
Proof.
  rewrite !andb_true_iff, nonempty_string, differs_string, Nat.ltb_lt. tauto.
Qed.

(** The filter accepts exactly the comments the specification describes,
    provided their reactions have the two attributes. *)
Lemma is_high_quality_spec (comment : Comment) (pr_author : string) :
  is_high_quality comment pr_author = Ok true <->
  exists b total plus,
    body comment = Some b /\ b <> EmptyString /\ 50 < String.length b /\
    user comment <> pr_author /\ reactions comment = Counts total plus /\
    (Z.max total plus >= 2)%Z.
Proof.
  unfold is_high_quality. split.
  - destruct (body comment) as [b|]; [|discriminate].
    destruct (negb (String.eqb b EmptyString) && (50 <? String.length b)
              && negb (String.eqb (user comment) pr_author)) eqn:Htests;
      [|discriminate].
    apply first_tests in Htests.
    destruct (reactions comment) as [total plus|d]; [|discriminate].
    cbn [total_count plus_one]. intros H.
    exists b, total, plus. repeat split; try tauto.
    apply weight_ge_min.
    destruct (total >=? MIN_REACTIONS)%Z; [left; reflexivity|].
    right. congruence.
  - intros (b & total & plus & -> & Hne & Hlen & Hu & -> & Hw).
    rewrite (proj2 (first_tests b (user comment) pr_author)) by tauto.
    cbn [total_count plus_one]. apply weight_ge_min in Hw.
    destruct (total >=? MIN_REACTIONS)%Z; [reflexivity|].
    destruct Hw as [Hw|Hw]; [discriminate Hw | rewrite Hw; reflexivity].
Qed.

(** The filter raises exactly on the comments that pass the first three
    tests and whose reactions are a dict; what it raises is
    AttributeError. *)
Lemma is_high_quality_raises (comment : Comment) (pr_author : string)
    (e : Exn) :
  is_high_quality comment pr_author = Raise e <->
  e = attribute_error /\
  exists b d,
    body comment = Some b /\ b <> EmptyString /\ 50 < String.length b /\
    user comment <> pr_author /\ reactions comment = RawDict d.
Proof.
  unfold is_high_quality. split.
  - destruct (body comment) as [b|]; [|discriminate].
    destruct (negb (String.eqb b EmptyString) && (50 <? String.length b)
              && negb (String.eqb (user comment) pr_author)) eqn:Htests;
      [|discriminate].
    apply first_tests in Htests.
    destruct (reactions comment) as [total plus|d]; cbn [total_count plus_one].
    + destruct (total >=? MIN_REACTIONS)%Z; discriminate.
    + intros H. injection H as <-. split; [reflexivity|].
      exists b, d. tauto.
  - intros (-> & b & d & -> & Hne & Hlen & Hu & ->).
    rewrite (proj2 (first_tests b (user comment) pr_author)) by tauto.
    reflexivity.
Qed.

Example accepts_51_characters_weight_2 :
  is_high_quality (comment_of (Some body51) "bob" 2 0) "alice" = Ok true /\
  is_high_quality (comment_of (Some body51) "bob" 0 2) "alice" = Ok true /\
  String.length body51 = 51.
Proof. repeat split; reflexivity. Qed.

Example rejects_50_characters :
  is_high_quality (comment_of (Some body50) "bob" 9 9) "alice" = Ok false /\
  String.length body50 = 50.
Proof. split; reflexivity. Qed.

Example rejects_weight_1 :
  is_high_quality (comment_of (Some body80) "bob" 1 1) "alice" = Ok false /\
  is_high_quality (comment_of (Some body80) "bob" 1 0) "alice" = Ok false.
Proof. split; reflexivity. Qed.

Example rejects_own_comment_and_missing_body :
  is_high_quality (comment_of (Some body80) "alice" 3 0) "alice" = Ok false /\
  is_high_quality (comment_of None "bob" 3 0) "alice" = Ok false /\
  is_high_quality (comment_of (Some EmptyString) "bob" 3 0) "alice" = Ok false.
Proof. repeat split; reflexivity. Qed.

(** C1.  The filter accepts a comment exactly when its body is present and
    non-empty, is longer than 50 characters, its author is not the pull
    request's author, the larger of its total and plus-one reaction counts
    is at least 2, and its reactions are an object with the attributes
    [total_count] and [plus_one].  On the dict that the imported client
    gives for the reactions, the expression raises AttributeError as soon
    as the first three tests pass, and so never accepts: the comment of 51
    characters by another author with total 2 and two +1 is not accepted.
    The rejections at length 50 and at weight 1 stand. *)
Theorem is_high_quality_raises_on_raw_reactions :
  (forall comment pr_author,
      is_high_quality comment pr_author = Ok true <->
      exists b total plus,
        body comment = Some b /\ b <> EmptyString /\ 50 < String.length b /\
        user comment <> pr_author /\ reactions comment = Counts total plus /\
        (Z.max total plus >= 2)%Z)
  /\ (forall comment pr_author d,
         reactions comment = RawDict d ->
         is_high_quality comment pr_author <> Ok true /\
         (is_high_quality comment pr_author = Raise attribute_error <->
          exists b,
            body comment = Some b /\ b <> EmptyString /\
            50 < String.length b /\ user comment <> pr_author))
  /\ (String.length body51 = 51 /\
      is_high_quality raw_comment51 "alice" = Raise attribute_error)
  /\ (forall comment pr_author b,
         body comment = Some b -> String.length b = 50 ->
         is_high_quality comment pr_author = Ok false)
  /\ (forall comment pr_author,
         reaction_weight comment = Some 1%Z ->
         is_high_quality comment pr_author = Ok false).
Proof.
  split; [exact is_high_quality_spec|].
  split; [|split; [split; reflexivity|split]].
  - intros c a d Hd. split.
    + intros H. apply is_high_quality_spec in H.
      destruct H as (b & total & plus & _ & _ & _ & _ & H & _). congruence.
    + rewrite is_high_quality_raises. split.
      * intros (_ & b & d' & H). exists b. tauto.
      * intros (b & H). split; [reflexivity|]. exists b, d. tauto.
  - intros c a b Hb Hlen. unfold is_high_quality. rewrite Hb.
    replace (50 <? String.length b) with false
      by (symmetry; apply Nat.ltb_ge; lia).
    rewrite andb_false_r. reflexivity.
  - intros c a Hw. unfold reaction_weight in Hw. unfold is_high_quality.
    destruct (body c) as [b|]; [|reflexivity].
    destruct (negb (String.eqb b EmptyString) && (50 <? String.length b)
              && negb (String.eqb (user c) a)); [|reflexivity].
    destruct (reactions c) as [total plus|d]; [|discriminate].
    injection Hw as Hw. cbn [total_count plus_one]. unfold MIN_REACTIONS.
    replace (total >=? 2)%Z with false by (symmetry; rewrite Z.geb_leb; apply Z.leb_gt; lia).
    replace (plus >=? 2)%Z with false by (symmetry; rewrite Z.geb_leb; apply Z.leb_gt; lia).
    reflexivity.
Qed.

(** ** Events and states *)

Lemma writes_app (t1 t2 : list Event) :
  writes (t1 ++ t2) = (writes t1 ++ writes t2)%list.
Proof.
  induction t1 as [|e t1 IH]; simpl; [reflexivity|].
  destruct e; simpl; rewrite IH; reflexivity.
Qed.

Lemma sleeps_app (t1 t2 : list Event) :
  sleeps (t1 ++ t2) = (sleeps t1 ++ sleeps t2)%list.
Proof.
  induction t1 as [|e t1 IH]; simpl; [reflexivity|].
  destruct e; simpl; rewrite IH; reflexivity.
Qed.

Lemma writes_map_Write (chunks : list string) :
  writes (map Write chunks) = chunks.
Proof.
  induction chunks as [|c chunks IH]; simpl; [reflexivity|].
  rewrite IH. reflexivity.
Qed.

Lemma sleeps_map_Write (chunks : list string) :
  sleeps (map Write chunks) = [].
Proof. induction chunks as [|c chunks IH]; simpl; assumption || reflexivity. Qed.

Lemma in_writes (t : list Event) (chunk : string) :
  In (Write chunk) t <-> In chunk (writes t).
Proof.
  induction t as [|e t IH]; simpl; [tauto|].
  destruct e; simpl; rewrite <- IH; split;
    try (intros [H|H]; [discriminate H || (injection H as ->; auto) | auto]);
    try (intros [->|H]; auto); auto.
Qed.

Lemma state_eq (s1 s2 : State) :
  trace s1 = trace s2 ->
  total_examples_found s1 = total_examples_found s2 -> s1 = s2.
Proof. destruct s1, s2; simpl; intros -> ->; reflexivity. Qed.

Lemma add_events_nil (s : State) : add_events [] s = s.
Proof.
  apply state_eq; simpl; [apply app_nil_r | apply Nat.add_0_r].
Qed.

Lemma add_events_app (evs1 evs2 : list Event) (s : State) :
  add_events (evs1 ++ evs2) s = add_events evs2 (add_events evs1 s).
Proof.
  apply state_eq; simpl.
  - apply app_assoc.
  - rewrite writes_app, length_app. apply Nat.add_assoc.
Qed.

(** Two results are the same when their traces and counters are. *)
Ltac same_state :=
  f_equal; apply state_eq; simpl;
  rewrite ?writes_app, ?length_app, <- ?app_assoc, ?Nat.add_0_r; simpl;
  try reflexivity; try lia.

(** ** Running the loops *)

Lemma emit_silent (e : Event) (s : State) :
  writes [e] = [] -> emit e s = (Ok tt, add_events [e] s).
Proof.
  intros H. unfold emit, add_events. rewrite H. simpl.
  rewrite Nat.add_0_r. reflexivity.
Qed.

Lemma print_run (m : Msg) (s : State) :
  print m s = (Ok tt, add_events [Print m] s).
Proof. apply emit_silent. reflexivity. Qed.

Lemma sleep_run (ms : nat) (s : State) :
  sleep ms s = (Ok tt, add_events [Sleep ms] s).
Proof. apply emit_silent. reflexivity. Qed.

Lemma bind_run {A B} {m : M A} (f : A -> M B) {s s' : State} {a : A} :
  m s = (Ok a, s') -> bind m f s = f a s'.
Proof. intros H. unfold bind. rewrite H. reflexivity. Qed.

(** A loop whose every turn returns and adds the events [events x]. *)
Lemma for_each_run {A} (events : A -> list Event) (loop_body : A -> M unit)
    (l : list A) :
  (forall x s, In x l -> loop_body x s = (Ok tt, add_events (events x) s)) ->
  forall s, for_each l loop_body s = (Ok tt, add_events (flat_map events l) s).
Proof.
  induction l as [|x l IH]; intros Hbody s; simpl.
  - unfold ret. rewrite add_events_nil. reflexivity.
  - rewrite (bind_run _ (Hbody x s (or_introl eq_refl))).
    rewrite IH by (intros; apply Hbody; right; assumption).
    rewrite add_events_app. reflexivity.
Qed.

Section Runs.

Variable json_dumps : PyVal -> string.
Variable per_page : nat.

Lemma process_comment_run (pr_author : string) (comment : Comment) (s : State) :
  process_comment json_dumps pr_author comment s =
  match is_high_quality comment pr_author with
  | Raise e => (Raise e, s)
  | Ok true => (Ok tt, add_events [Write (chunk_of json_dumps comment)] s)
  | Ok false => (Ok tt, s)
  end.
Proof.
  unfold process_comment, bind, lift.
  destruct (is_high_quality comment pr_author) as [[|]|e]; reflexivity.
Qed.

Lemma comments_run (pr_author : string) (comments : list Comment) (s : State) :
  for_each comments (process_comment json_dumps pr_author) s =
  (outcome (filter_failure pr_author comments),
   add_events (map Write (gold_chunks json_dumps pr_author comments)) s).
Proof.
  revert s. unfold gold_chunks.
  induction comments as [|c comments IH]; intros s.
  - simpl. unfold ret. rewrite add_events_nil. reflexivity.
  - cbn [for_each accepted filter_failure]. unfold bind.
    rewrite process_comment_run.
    destruct (is_high_quality c pr_author) as [[|]|e].
    + rewrite IH. cbn [map]. same_state.
    + apply IH.
    + simpl. rewrite add_events_nil. reflexivity.
Qed.

Lemma listing_run (pr_author : string) (l : Listing Comment) (s : State) :
  for_listing l (process_comment json_dumps pr_author) s =
  (outcome (listing_failure pr_author l),
   add_events (map Write (gold_chunks json_dumps pr_author (yielded l))) s).
Proof.
  unfold for_listing, listing_failure, bind. rewrite comments_run.
  destruct (filter_failure pr_author (yielded l)) as [e|]; [reflexivity|].
  cbn [outcome]. destruct (raised l); reflexivity.
Qed.

Lemma pr_handler_run (pr : PullRequest) (e : Exn) (s : State) :
  pr_handler pr e s = (Ok tt, add_events [Print (pr_message pr e)] s).
Proof.
  unfold pr_handler, pr_message.
  destruct e as [status|what]; [destruct (status =? 404)%Z|]; apply print_run.
Qed.

Lemma repo_handler_run (repo_name : string) (e : Exn) (s : State) :
  repo_handler repo_name e s =
  (Ok tt, add_events [Print (repo_message repo_name e)] s).
Proof.
  unfold repo_handler, repo_message.
  destruct e as [status|what]; [destruct (status =? 404)%Z|]; apply print_run.
Qed.

(** One turn of the loop over pull requests: the exception of a failed
    read leaves it, everything else is caught inside. *)
Lemma process_pr_run (pr : PullRequest) (s : State) :
  process_pr json_dumps pr s =
  (outcome (pr_raises pr), add_events (pr_events json_dumps pr) s).
Proof.
  unfold process_pr, pr_raises, pr_events, bind at 1, lift.
  destruct (merged pr) as [[|]|e]; cbn [negb outcome].
  - unfold bind at 1, lift.
    destruct (pr_user pr) as [pr_author|e]; cbn [outcome].
    + unfold bind, try_except, failure_events. rewrite listing_run.
      destruct (listing_failure pr_author (get_review_comments pr)) as [e|];
        cbn [outcome].
      * rewrite pr_handler_run, sleep_run. same_state.
      * rewrite sleep_run. same_state.
    + rewrite add_events_nil. reflexivity.
  - unfold ret. rewrite add_events_nil. reflexivity.
  - rewrite add_events_nil. reflexivity.
Qed.

(** The loop over pull requests stops at the first turn that raises. *)
Lemma prs_run (prs : list PullRequest) (s : State) :
  for_each prs (process_pr json_dumps) s =
  (outcome (prs_failure prs),
   add_events (flat_map (pr_events json_dumps) (completed prs)) s).
Proof.
  revert s. induction prs as [|pr prs IH]; intros s.
  - simpl. unfold ret. rewrite add_events_nil. reflexivity.
  - cbn [for_each completed prs_failure]. unfold bind.
    rewrite process_pr_run.
    destruct (pr_raises pr) as [e|] eqn:Hr; cbn [outcome flat_map].
    + assert (Hevs : pr_events json_dumps pr = []).
      { unfold pr_raises in Hr. unfold pr_events.
        destruct (merged pr) as [[|]|]; try reflexivity.
        destruct (pr_user pr); [discriminate Hr | reflexivity]. }
      rewrite Hevs. reflexivity.
    + rewrite IH, add_events_app. reflexivity.
Qed.

Lemma process_repo_run (W : World) (repo_name : string) (s : State) :
  process_repo json_dumps per_page W repo_name s =
  (Ok tt, add_events (repo_events json_dumps per_page W repo_name) s).
Proof.
  unfold process_repo, repo_events, try_except, bind, lift, failure_events.
  destruct (get_repo W repo_name) as [repo|e].
  - rewrite print_run.
    destruct (crawl per_page repo) as [prs|e].
    + rewrite prs_run.
      destruct (prs_failure prs) as [e|]; cbn [outcome].
      * rewrite repo_handler_run. same_state.
      * rewrite app_nil_r. same_state.
    + rewrite repo_handler_run. same_state.
  - apply repo_handler_run.
Qed.

Lemma repos_run (W : World) (targets : list string) (s : State) :
  for_each targets (process_repo json_dumps per_page W) s =
  (Ok tt,
   add_events (flat_map (repo_events json_dumps per_page W) targets) s).
Proof. apply for_each_run. intros name s' _. apply process_repo_run. Qed.

Lemma curate_run (W : World) (targets : list string) (s : State) :
  let evs := flat_map (repo_events json_dumps per_page W) targets in
  curate json_dumps per_page W targets s =
  (Ok tt,
   {| trace :=
        trace s ++ OpenW OUTPUT_FILE :: evs
        ++ [Close; Print MsgCurationComplete;
            Print (MsgTotal (List.length (writes evs)));
            Print (MsgSavedTo OUTPUT_FILE)];
      total_examples_found := List.length (writes evs) |}).
Proof.
  intros evs. unfold curate, bind, emit at 1, set_total, get_total.
  rewrite repos_run. fold evs.
  rewrite (emit_silent Close) by reflexivity.
  rewrite !print_run. same_state.
Qed.

Lemma authenticate_ok (W : World) (login : string) (s : State) :
  get_user_login W = Ok login ->
  authenticate W s = (Ok true, add_events [Print (MsgAuthenticated login)] s).
Proof.
  intros H. unfold authenticate, try_except, bind, lift, ret.
  rewrite H, print_run. reflexivity.
Qed.

Lemma authenticate_refused (W : World) (e : Exn) (s : State) :
  get_user_login W = Raise e ->
  authenticate W s = (Ok false, add_events [Print (MsgAuthError e)] s).
Proof.
  intros H. unfold authenticate, try_except, bind, lift, ret.
  rewrite H, print_run. reflexivity.
Qed.

(** The trace of a run that got past the credential and the
    authentication. *)
Lemma run_started (W : World) (login : string) :
  truthy (GITHUB_PAT W) = true -> get_user_login W = Ok login ->
  let evs := flat_map (repo_events json_dumps per_page W) TARGET_REPOS in
  main json_dumps per_page W init =
  (Ok tt,
   {| trace :=
        Print (MsgAuthenticated login) :: OpenW OUTPUT_FILE :: evs
        ++ [Close; Print MsgCurationComplete;
            Print (MsgTotal (List.length (writes evs)));
            Print (MsgSavedTo OUTPUT_FILE)];
      total_examples_found := List.length (writes evs) |}).
Proof.
  intros Htoken Hauth evs. unfold main. rewrite Htoken. cbn [negb].
  rewrite (bind_run _ (authenticate_ok W _ init Hauth)).
  rewrite curate_run. reflexivity.
Qed.

Lemma run_no_credential (W : World) :
  truthy (GITHUB_PAT W) = false ->
  main json_dumps per_page W init =
  (Ok tt,
   {| trace := [Print MsgFatalNoToken; Print MsgCreatePat];
      total_examples_found := 0 |}).
Proof. intros Htoken. unfold main. rewrite Htoken. reflexivity. Qed.

Lemma run_not_authenticated (W : World) (e : Exn) :
  truthy (GITHUB_PAT W) = true -> get_user_login W = Raise e ->
  main json_dumps per_page W init =
  (Ok tt,
   {| trace := [Print (MsgAuthError e)]; total_examples_found := 0 |}).
Proof.
  intros Htoken Hauth. unfold main. rewrite Htoken. cbn [negb].
  rewrite (bind_run _ (authenticate_refused W _ init Hauth)). reflexivity.
Qed.

End Runs.


(** ** Where a written line comes from *)

Lemma in_firstn {A} (n : nat) (l : list A) (x : A) :
  In x (firstn n l) -> In x l.
Proof.
  revert l. induction n as [|n IH]; intros [|y l]; simpl; try tauto.
  intros [->|H]; [left; reflexivity | right; apply IH; assumption].
Qed.

Lemma crawl_unfold (per_page : nat) (repo : Repository) :
  crawl per_page repo =
  match pulls_failure repo with
  | Some e => Raise e
  | None =>
      Ok (firstn (Nat.min PRS_TO_CHECK_PER_REPO per_page) (closed_pulls repo))
  end.
Proof.
  unfold crawl, get_page. destruct (pulls_failure repo); [reflexivity|].
  cbn [Nat.mul skipn]. f_equal. apply firstn_firstn.
Qed.

Lemma crawl_first_page (per_page : nat) (repo : Repository)
    (prs : list PullRequest) :
  crawl per_page repo = Ok prs ->
  pulls_failure repo = None /\
  prs = firstn (Nat.min PRS_TO_CHECK_PER_REPO per_page) (closed_pulls repo).
Proof.
  rewrite crawl_unfold.
  destruct (pulls_failure repo); [discriminate|].
  intros H. injection H as <-. split; reflexivity.
Qed.

Lemma crawl_in (per_page : nat) (repo : Repository) (prs : list PullRequest)
    (pr : PullRequest) :
  crawl per_page repo = Ok prs -> In pr prs -> In pr (closed_pulls repo).
Proof.
  intros H Hin. apply crawl_first_page in H. destruct H as [_ ->].
  eapply in_firstn. eassumption.
Qed.

Lemma accepted_in (pr_author : string) (comments : list Comment)
    (comment : Comment) :
  In comment (accepted pr_author comments) ->
  In comment comments /\ is_high_quality comment pr_author = Ok true.
Proof.
  induction comments as [|c comments IH]; [intros []|].
  cbn [accepted]. destruct (is_high_quality c pr_author) as [[|]|e] eqn:Hq.
  - intros [<-|H]; [split; [left; reflexivity | assumption]|].
    destruct (IH H). split; [right|]; assumption.
  - intros H. destruct (IH H). split; [right|]; assumption.
  - intros [].
Qed.

Lemma completed_in (prs : list PullRequest) (pr : PullRequest) :
  In pr (completed prs) -> In pr prs /\ pr_raises pr = None.
Proof.
  induction prs as [|p prs IH]; [intros []|].
  cbn [completed]. destruct (pr_raises p) eqn:Hp; [intros []|].
  intros [<-|H]; [split; [left; reflexivity | assumption]|].
  destruct (IH H). split; [right|]; assumption.
Qed.

Section Provenance.

Variable json_dumps : PyVal -> string.
Variable per_page : nat.

Lemma gold_chunk_spec (pr_author chunk : string) (comments : list Comment) :
  In chunk (gold_chunks json_dumps pr_author comments) ->
  exists comment b total plus,
    In comment comments /\ body comment = Some b /\
    chunk = json_dumps
              (create_training_example (PStr system_prompt)
                 (PStr (diff_hunk comment)) (PStr b)) ++ newline /\
    b <> EmptyString /\ 50 < String.length b /\
    user comment <> pr_author /\ reactions comment = Counts total plus /\
    (Z.max total plus >= 2)%Z.
Proof.
  unfold gold_chunks. rewrite in_map_iff.
  intros (c & Hchunk & Hc). apply accepted_in in Hc. destruct Hc as [Hin Hq].
  apply is_high_quality_spec in Hq.
  destruct Hq as (b & total & plus & Hb & Hne & Hlen & Hu & Hr & Hw).
  exists c, b, total, plus. repeat split; try assumption.
  rewrite <- Hchunk. unfold chunk_of. rewrite Hb. reflexivity.
Qed.

Lemma pr_events_write (pr : PullRequest) (chunk : string) :
  In (Write chunk) (pr_events json_dumps pr) ->
  exists pr_author,
    merged pr = Ok true /\ pr_user pr = Ok pr_author /\
    In chunk
      (gold_chunks json_dumps pr_author (yielded (get_review_comments pr))).
Proof.
  unfold pr_events, failure_events.
  destruct (merged pr) as [[|]|]; try (intros []).
  destruct (pr_user pr) as [pr_author|]; [|intros []].
  rewrite !in_app_iff, in_map_iff. intros [H|[H|H]].
  - destruct H as (c & Hc & Hin). injection Hc as ->. eauto.
  - destruct (listing_failure pr_author (get_review_comments pr)); simpl in H;
      [destruct H as [H|[]]; discriminate H | destruct H].
  - simpl in H. destruct H as [H|[]]. discriminate H.
Qed.

Lemma repo_events_write (W : World) (repo_name chunk : string) :
  In (Write chunk) (repo_events json_dumps per_page W repo_name) ->
  exists repo pr,
    get_repo W repo_name = Ok repo /\ In pr (closed_pulls repo) /\
    In (Write chunk) (pr_events json_dumps pr).
Proof.
  unfold repo_events, failure_events.
  destruct (get_repo W repo_name) as [repo|e].
  - intros [H|H]; [discriminate H|].
    destruct (crawl per_page repo) as [prs|e] eqn:Hcrawl.
    + apply in_app_iff in H. destruct H as [H|H].
      * apply in_flat_map in H. destruct H as (pr & Hpr & Hw).
        apply completed_in in Hpr. destruct Hpr as [Hpr _].
        exists repo, pr. split; [reflexivity|]. split; [|assumption].
        eapply crawl_in; eassumption.
      * destruct (prs_failure prs); simpl in H;
          [destruct H as [H|[]]; discriminate H | destruct H].
    + destruct H as [H|[]]. discriminate H.
  - intros [H|[]]. discriminate H.
Qed.

(** Every line a run writes comes from an accepted comment. *)
Lemma run_write_provenance (W : World) (chunk : string) :
  In (Write chunk) (run json_dumps per_page W) ->
  exists repo_name repo pr pr_author comment b total plus,
    In repo_name TARGET_REPOS /\ get_repo W repo_name = Ok repo /\
    In pr (closed_pulls repo) /\ merged pr = Ok true /\
    pr_user pr = Ok pr_author /\
    In comment (yielded (get_review_comments pr)) /\
    body comment = Some b /\
    chunk = json_dumps
              (create_training_example (PStr system_prompt)
                 (PStr (diff_hunk comment)) (PStr b)) ++ newline /\
    b <> EmptyString /\ 50 < String.length b /\
    user comment <> pr_author /\ reactions comment = Counts total plus /\
    (Z.max total plus >= 2)%Z.
Proof.
  unfold run. intros Hin.
  destruct (truthy (GITHUB_PAT W)) eqn:Htoken.
  2:{ rewrite (run_no_credential json_dumps per_page W Htoken) in Hin.
      simpl in Hin. destruct Hin as [H|[H|[]]]; discriminate H. }
  destruct (get_user_login W) as [login|e] eqn:Hauth.
  2:{ rewrite (run_not_authenticated json_dumps per_page W _ Htoken Hauth)
        in Hin.
      simpl in Hin. destruct Hin as [H|[]]. discriminate H. }
  rewrite (run_started json_dumps per_page W _ Htoken Hauth) in Hin.
  cbn [snd trace] in Hin.
  destruct Hin as [H|[H|Hin]]; try discriminate H.
  apply in_app_iff in Hin. destruct Hin as [Hin|Hin].
  2:{ simpl in Hin. destruct Hin as [H|[H|[H|[H|[]]]]]; discriminate H. }
  apply in_flat_map in Hin. destruct Hin as (repo_name & Htarget & Hin).
  apply repo_events_write in Hin.
  destruct Hin as (repo & pr & Hrepo & Hpr & Hin).
  apply pr_events_write in Hin. destruct Hin as (a & Hmerged & Huser & Hin).
  apply gold_chunk_spec in Hin.
  destruct Hin as (c & b & total & plus & Hc & Hb & Hchunk & Hne & Hlen & Hu
                   & Hr & Hw).
  exists repo_name, repo, pr, a, c, b, total, plus. tauto.
Qed.

End Provenance.

(** ** The invariant of the output *)

(** C2.  Every line a run writes to the output is the serialised record of
    a review comment of a merged pull request of a target repository; the
    record's assistant content is that comment's body, which is non-empty
    and longer than 50 characters; the comment's author is not the pull
    request's author; and its reaction weight is at least MIN_REACTIONS
    (2). *)
Theorem emitted_records_are_gold (json_dumps : PyVal -> string)
    (per_page : nat) (W : World) (chunk : string) :
  In (Write chunk) (run json_dumps per_page W) ->
  exists repo_name repo pr pr_author comment b weight,
    In repo_name TARGET_REPOS /\ get_repo W repo_name = Ok repo /\
    In pr (closed_pulls repo) /\ merged pr = Ok true /\
    pr_user pr = Ok pr_author /\
    In comment (yielded (get_review_comments pr)) /\
    body comment = Some b /\
    chunk = json_dumps
              (create_training_example (PStr system_prompt)
                 (PStr (diff_hunk comment)) (PStr b)) ++ newline /\
    b <> EmptyString /\
    user comment <> pr_author /\
    50 < String.length b /\
    reaction_weight comment = Some weight /\
    (weight >= MIN_REACTIONS)%Z.
Proof.
  intros Hin. apply run_write_provenance in Hin.
  destruct Hin as (repo_name & repo & pr & a & c & b & total & plus & H).
  exists repo_name, repo, pr, a, c, b, (Z.max total plus).
  unfold reaction_weight, MIN_REACTIONS.
  destruct H as (? & ? & ? & ? & ? & ? & ? & ? & ? & ? & ? & Hr & ?).
  rewrite Hr. tauto.
Qed.

Lemma emitted_records_are_gold_witness :
  exists repo_name repo pr pr_author comment b weight,
    In repo_name TARGET_REPOS /\ get_repo world_one_repo repo_name = Ok repo /\
    In pr (closed_pulls repo) /\ merged pr = Ok true /\
    pr_user pr = Ok pr_author /\
    In comment (yielded (get_review_comments pr)) /\
    body comment = Some b /\
    chunk_of sample_dumps gold_comment
    = sample_dumps
        (create_training_example (PStr system_prompt)
           (PStr (diff_hunk comment)) (PStr b)) ++ newline /\
    b <> EmptyString /\
    user comment <> pr_author /\
    50 < String.length b /\
    reaction_weight comment = Some weight /\
    (weight >= MIN_REACTIONS)%Z.
Proof.
  apply (emitted_records_are_gold sample_dumps 30 world_one_repo
           (chunk_of sample_dumps gold_comment)).
  vm_compute. do 6 right. left. reflexivity.
Defined.

(** ** The crawl *)

(** C3.  The crawl returns [get_page(0)] cut to PRS_TO_CHECK_PER_REPO: the
    first min(500, page size) closed pull requests.  With 30 items on a
    page and 31 closed pull requests it visits 30 of them, where
    min(max_to_check, number of closed pull requests) is 31: no page after
    the first is requested. *)
Theorem crawl_visits_first_page_only :
  (forall per_page prs,
      crawl per_page (repo_of prs)
      = Ok (firstn (Nat.min PRS_TO_CHECK_PER_REPO per_page) prs))
  /\ List.length (closed_pulls repo31) = 31
  /\ Nat.min PRS_TO_CHECK_PER_REPO (List.length (closed_pulls repo31)) = 31
  /\ exists prs, crawl 30 repo31 = Ok prs /\ List.length prs = 30.
Proof.
  split; [|split; [|split]].
  - intros per_page prs. apply crawl_unfold.
  - reflexivity.
  - reflexivity.
  - eexists. split; reflexivity.
Qed.

(** ** The extractor on one pull request *)

(** Scenario A: one merged pull request with one comment of 80 characters
    by bob, the author being alice, three reactions. *)
Example scenario_A :
  process_pr sample_dumps pr_merged init
  = (Ok tt,
     {| trace := [Write (chunk_of sample_dumps gold_comment); Sleep 100];
        total_examples_found := 1 |})
  /\ String.length body80 = 80.
Proof. split; reflexivity. Qed.

(** Scenario B: the same comment written by the author. *)
Example scenario_B :
  writes (trace (snd (process_pr sample_dumps
                        {| merged := Ok true; pr_user := Ok "alice";
                           number := 7;
                           get_review_comments :=
                             all_yielded
                               [comment_of (Some body80) "alice" 3 0] |}
                        init)))
  = [].
Proof. reflexivity. Qed.

(** A listing that breaks after a qualifying comment keeps that record. *)
Example broken_listing_keeps_earlier_records :
  process_pr sample_dumps pr_broken init
  = (Ok tt,
     {| trace := [Write (chunk_of sample_dumps gold_comment);
                  Print (MsgApiErrorPR 10 (GithubException 502)); Sleep 100];
        total_examples_found := 1 |}).
Proof. reflexivity. Qed.

(** Scenario A with the reactions of the imported client: the filter
    raises, the handler of line 112 prints, nothing is written. *)
Example scenario_A_with_raw_reactions :
  process_pr sample_dumps pr_merged_raw init
  = (Ok tt,
     {| trace := [Print (MsgErrorPR 12 attribute_error); Sleep 100];
        total_examples_found := 0 |}).
Proof. reflexivity. Qed.

(** ** Pull requests that were not merged *)

(** C4.  The turn of a pull request whose merged flag is false returns at
    once: it writes nothing, counts nothing, prints nothing, whatever its
    review comments are. *)
Theorem unmerged_pr_yields_nothing (json_dumps : PyVal -> string)
    (pr : PullRequest) (s : State) :
  merged pr = Ok false -> process_pr json_dumps pr s = (Ok tt, s).
Proof. intros H. unfold process_pr, bind, lift. rewrite H. reflexivity. Qed.

Lemma unmerged_pr_yields_nothing_witness :
  merged pr_unmerged = Ok false /\
  is_high_quality gold_comment "alice" = Ok true /\
  process_pr sample_dumps pr_unmerged init = (Ok tt, init).
Proof.
  split; [reflexivity|]. split; [reflexivity|].
  apply (unmerged_pr_yields_nothing sample_dumps pr_unmerged init).
  reflexivity.
Defined.

(** ** The record builder *)

(** C8.  The builder is a total function of its three strings, so equal
    inputs give equal records; the record holds three messages whose roles
    are system, user, assistant in this order and whose contents are the
    system prompt, the diff excerpt and the comment body. *)
Theorem create_training_example_ordered (prompt excerpt comment_body : string) :
  let example :=
    create_training_example (PStr prompt) (PStr excerpt) (PStr comment_body) in
  (forall prompt' excerpt' comment_body',
      prompt' = prompt /\ excerpt' = excerpt /\ comment_body' = comment_body <->
      create_training_example (PStr prompt') (PStr excerpt')
        (PStr comment_body') = example)
  /\ map (field_of "role") (messages_of example)
     = [Some (PStr "system"); Some (PStr "user"); Some (PStr "assistant")]
  /\ map (field_of "content") (messages_of example)
     = [Some (PStr prompt); Some (PStr excerpt); Some (PStr comment_body)].
Proof.
  intros example. split; [|split; reflexivity].
  intros prompt' excerpt' comment_body'. split.
  - intros (-> & -> & ->). reflexivity.
  - unfold example, create_training_example. intros H.
    injection H as -> -> ->. auto.
Qed.

(** ** Failures while a pull request is processed *)

Lemma completed_all (prs : list PullRequest) :
  (forall pr, In pr prs -> pr_raises pr = None) ->
  completed prs = prs /\ prs_failure prs = None.
Proof.
  induction prs as [|pr prs IH]; intros H; [split; reflexivity|].
  cbn [completed prs_failure]. rewrite (H pr (or_introl eq_refl)).
  destruct IH as [-> ->]; [|split; reflexivity].
  intros p Hp. apply H. right. assumption.
Qed.

Lemma completed_until (before after : list PullRequest) (pr : PullRequest)
    (e : Exn) :
  (forall p, In p before -> pr_raises p = None) -> pr_raises pr = Some e ->
  completed (before ++ pr :: after) = before /\
  prs_failure (before ++ pr :: after) = Some e.
Proof.
  intros Hb Hpr. induction before as [|p before IH].
  - cbn [app completed prs_failure]. rewrite Hpr. split; reflexivity.
  - cbn [app completed prs_failure]. rewrite (Hb p (or_introl eq_refl)).
    destruct IH as [-> ->]; [|split; reflexivity].
    intros q Hq. apply Hb. right. assumption.
Qed.

Section PullRequestFailures.

Variable json_dumps : PyVal -> string.

Lemma pr_message_cases (pr : PullRequest) (e : Exn) :
  e <> GithubException 404 ->
  pr_message pr e = MsgApiErrorPR (number pr) e \/
  pr_message pr e = MsgErrorPR (number pr) e.
Proof.
  intros Hne. destruct e as [status|what]; simpl; [|right; reflexivity].
  destruct (Z.eqb_spec status 404) as [->|_]; [congruence | left; reflexivity].
Qed.

(** The loop over pull requests is left at the first failed read. *)
Lemma prs_run_until (before after : list PullRequest) (pr : PullRequest)
    (e : Exn) (s : State) :
  (forall p, In p before -> pr_raises p = None) -> pr_raises pr = Some e ->
  for_each before (process_pr json_dumps) s
  = (Ok tt, add_events (flat_map (pr_events json_dumps) before) s) /\
  for_each (before ++ pr :: after) (process_pr json_dumps) s
  = (Raise e, add_events (flat_map (pr_events json_dumps) before) s).
Proof.
  intros Hb Hpr. rewrite !prs_run.
  destruct (completed_all before Hb) as [-> ->].
  destruct (completed_until before after pr e Hb Hpr) as [-> ->].
  split; reflexivity.
Qed.

End PullRequestFailures.

(** C5.  The [try] of line 78 covers the comment listing only.  The reads
    of [pr.merged] (line 73) and [pr.user.login] (line 76) stand before
    it: when one of them raises, the exception leaves the loop over pull
    requests, the pull requests after that one are not processed, and
    the handler of the repository prints a line naming the repository,
    not the pull request.  With a failed read of the merged flag before a
    merged pull request with a qualifying comment, the turn of the
    repository writes nothing.  In scenario E with the reactions of the
    imported client, the sibling's comment makes the filter raise
    AttributeError: the turn of the repository writes no record, where
    the claim has one. *)
Theorem pr_read_failure_ends_the_repository :
  (forall json_dumps (before after : list PullRequest) (pr : PullRequest)
          (e : Exn) (s : State),
      (forall p, In p before -> pr_raises p = None) ->
      merged pr = Raise e \/ (merged pr = Ok true /\ pr_user pr = Raise e) ->
      exists s',
        for_each before (process_pr json_dumps) s = (Ok tt, s') /\
        process_pr json_dumps pr s' = (Raise e, s') /\
        for_each (before ++ pr :: after) (process_pr json_dumps) s
        = (Raise e, s'))
  /\
  (forall json_dumps per_page (W : World) (repo_name : string)
          (repo : Repository) (prs : list PullRequest) (e : Exn)
          (s s' : State),
      get_repo W repo_name = Ok repo -> crawl per_page repo = Ok prs ->
      for_each prs (process_pr json_dumps)
        (add_events [Print (MsgScraping repo_name)] s) = (Raise e, s') ->
      process_repo json_dumps per_page W repo_name s
      = (Ok tt, add_events [Print (repo_message repo_name e)] s'))
  /\ process_repo sample_dumps 30 world_unreadable "rust-lang/rust" init
     = (Ok tt,
        {| trace := [Print (MsgScraping "rust-lang/rust");
                     Print (MsgApiErrorRepo "rust-lang/rust"
                              (GithubException 502))];
           total_examples_found := 0 |})
  /\ process_repo sample_dumps 30 world_scenario_E_raw "rust-lang/rust" init
     = (Ok tt,
        {| trace := [Print (MsgScraping "rust-lang/rust");
                     Print (MsgSkippingPR 9); Sleep 100;
                     Print (MsgErrorPR 12 attribute_error); Sleep 100];
           total_examples_found := 0 |}).
Proof.
  split; [|split; [|split; reflexivity]].
  - intros jd before after pr e s Hb Hread.
    assert (Hpr : pr_raises pr = Some e).
    { unfold pr_raises. destruct Hread as [->|[-> ->]]; reflexivity. }
    destruct (prs_run_until jd before after pr e s Hb Hpr) as [H1 H2].
    eexists. split; [exact H1|]. split; [|exact H2].
    rewrite process_pr_run, Hpr. cbn [outcome]. f_equal.
    assert (Hevs : pr_events jd pr = []).
    { unfold pr_events. destruct Hread as [->|[-> ->]]; reflexivity. }
    rewrite Hevs. apply add_events_nil.
  - intros jd per_page W repo_name repo prs e s s' Hrepo Hcrawl Hloop.
    unfold process_repo, try_except, bind, lift.
    rewrite Hrepo, print_run, Hcrawl, Hloop. apply repo_handler_run.
Qed.

(** ** Failures while a repository is opened *)

Lemma completed_without_failure (prs : list PullRequest) :
  prs_failure prs = None -> completed prs = prs.
Proof.
  induction prs as [|pr prs IH]; [reflexivity|].
  cbn [completed prs_failure]. destruct (pr_raises pr); [discriminate|].
  intros Hf. rewrite (IH Hf). reflexivity.
Qed.

Section RepositoryFailures.

Variable json_dumps : PyVal -> string.
Variable per_page : nat.
Variable W : World.

Lemma failing_repo_events (repo_name : string) (e : Exn) :
  get_repo W repo_name = Raise e ->
  repo_events json_dumps per_page W repo_name
  = [Print (repo_message repo_name e)].
Proof. intros H. unfold repo_events. rewrite H. reflexivity. Qed.

Lemma repo_message_cases (repo_name : string) (e : Exn) :
  repo_message repo_name e = MsgRepoNotFound repo_name \/
  repo_message repo_name e = MsgApiErrorRepo repo_name e \/
  repo_message repo_name e = MsgErrorRepo repo_name e.
Proof.
  destruct e as [status|what]; simpl; [|auto].
  destruct (status =? 404)%Z; auto.
Qed.

Lemma no_writes_without_repo (targets : list string) :
  (forall name, In name targets -> exists e, get_repo W name = Raise e) ->
  writes (flat_map (repo_events json_dumps per_page W) targets) = [].
Proof.
  intros Hall.
  destruct (writes (flat_map (repo_events json_dumps per_page W) targets))
    as [|chunk rest] eqn:Hw; [reflexivity|].
  assert (Hin : In (Write chunk)
                  (flat_map (repo_events json_dumps per_page W) targets)).
  { apply in_writes. rewrite Hw. left. reflexivity. }
  apply in_flat_map in Hin. destruct Hin as (name & Hname & Hin).
  apply repo_events_write in Hin. destruct Hin as (repo & _ & Hrepo & _).
  destruct (Hall name Hname) as [e He]. congruence.
Qed.

(** The turn of a target that is opened: the banner, then the loop over
    the pull requests of the crawl, then the failure line if the loop
    raised. *)
Lemma opened_repo_run (repo_name : string) (repo : Repository)
    (prs : list PullRequest) (s : State) :
  get_repo W repo_name = Ok repo -> crawl per_page repo = Ok prs ->
  process_repo json_dumps per_page W repo_name s =
  match for_each prs (process_pr json_dumps)
          (add_events [Print (MsgScraping repo_name)] s) with
  | (Ok _, s') => (Ok tt, s')
  | (Raise e, s') => (Ok tt, add_events [Print (repo_message repo_name e)] s')
  end.
Proof.
  intros Hrepo Hcrawl. unfold process_repo, try_except, bind, lift.
  rewrite Hrepo, print_run, Hcrawl.
  destruct (for_each prs (process_pr json_dumps)
              (add_events [Print (MsgScraping repo_name)] s)) as [[[]|e] s'].
  - reflexivity.
  - apply repo_handler_run.
Qed.

End RepositoryFailures.

(** C6.  When the lookup of a target raises, whatever the exception, the
    turn of that target prints the one line of the repository handler and
    changes nothing else, the counter included, and the loop over the
    targets returns with, in this order, the events of the targets before,
    that line, and the events of the targets after.  A target that is
    opened is processed whatever happened to the others: its banner is
    printed and the loop over the pull requests of its crawl is run from
    there.  A run that passed the credential and authentication checks
    returns normally; its trace is the authentication line, the opening of
    the output, the events of the four targets, the closing, and the three
    summary lines, the total being the number of records written; when
    every lookup fails it wrote none. *)
Theorem repo_failure_is_local (json_dumps : PyVal -> string) (per_page : nat)
    (W : World) :
  (forall (before after : list string) (repo_name : string) (e : Exn)
          (s : State),
      get_repo W repo_name = Raise e ->
      process_repo json_dumps per_page W repo_name s
      = (Ok tt,
         {| trace := trace s ++ [Print (repo_message repo_name e)];
            total_examples_found := total_examples_found s |}) /\
      for_each (before ++ repo_name :: after)
        (process_repo json_dumps per_page W) s
      = (Ok tt,
         add_events
           (flat_map (repo_events json_dumps per_page W) before
            ++ [Print (repo_message repo_name e)]
            ++ flat_map (repo_events json_dumps per_page W) after) s))
  /\
  (forall (repo_name : string) (repo : Repository) (prs : list PullRequest)
          (s s' : State),
      get_repo W repo_name = Ok repo -> crawl per_page repo = Ok prs ->
      for_each prs (process_pr json_dumps)
        (add_events [Print (MsgScraping repo_name)] s) = (Ok tt, s') ->
      process_repo json_dumps per_page W repo_name s = (Ok tt, s') /\
      repo_events json_dumps per_page W repo_name
      = Print (MsgScraping repo_name) :: flat_map (pr_events json_dumps) prs)
  /\
  (forall login,
      truthy (GITHUB_PAT W) = true -> get_user_login W = Ok login ->
      exists t,
        t = (Print (MsgAuthenticated login) :: OpenW OUTPUT_FILE
             :: flat_map (repo_events json_dumps per_page W) TARGET_REPOS
             ++ [Close])%list /\
        main json_dumps per_page W init
        = (Ok tt,
           {| trace :=
                t ++ [Print MsgCurationComplete;
                      Print (MsgTotal (List.length (writes t)));
                      Print (MsgSavedTo OUTPUT_FILE)];
              total_examples_found := List.length (writes t) |}) /\
        ((forall name, In name TARGET_REPOS ->
                       exists e, get_repo W name = Raise e) ->
         writes t = [])).
Proof.
  split; [|split].
  - intros before after repo_name e s He. split.
    + rewrite process_repo_run, (failing_repo_events _ _ _ _ _ He).
      same_state.
    + rewrite repos_run, flat_map_app. cbn [flat_map].
      rewrite (failing_repo_events _ _ _ _ _ He). reflexivity.
  - intros repo_name repo prs s s' Hrepo Hcrawl Hloop. split.
    + rewrite (opened_repo_run _ _ _ _ _ _ s Hrepo Hcrawl), Hloop.
      reflexivity.
    + rewrite prs_run in Hloop.
      destruct (prs_failure prs) as [e|] eqn:Hf; [discriminate Hloop|].
      unfold repo_events, failure_events.
      rewrite Hrepo, Hcrawl, Hf, (completed_without_failure prs Hf), app_nil_r.
      reflexivity.
  - intros login Htoken Hauth.
    set (evs := flat_map (repo_events json_dumps per_page W) TARGET_REPOS).
    eexists. split; [reflexivity|].
    assert (Hw : writes (Print (MsgAuthenticated login) :: OpenW OUTPUT_FILE
                         :: evs ++ [Close]) = writes evs).
    { cbn [writes]. rewrite writes_app. apply app_nil_r. }
    split.
    + rewrite (run_started json_dumps per_page W _ Htoken Hauth). fold evs.
      rewrite Hw. cbn [app]. rewrite <- app_assoc. reflexivity.
    + intros Hall. rewrite Hw. apply no_writes_without_repo. assumption.
Qed.

Lemma repo_failure_is_local_witness :
  process_repo sample_dumps 30 world_one_repo "rust-lang/rust" init
  = (Ok tt,
     {| trace := [Print (MsgRepoNotFound "rust-lang/rust")];
        total_examples_found := 0 |}) /\
  for_each ["rust-lang/rust"; "microsoft/vscode"; "kubernetes/kubernetes"]
    (process_repo sample_dumps 30 world_one_repo) init
  = (Ok tt,
     {| trace := [Print (MsgRepoNotFound "rust-lang/rust");
                  Print (MsgScraping "microsoft/vscode");
                  Print (MsgSkippingPR 9); Sleep 100;
                  Write (chunk_of sample_dumps gold_comment); Sleep 100;
                  Print (MsgRepoNotFound "kubernetes/kubernetes")];
        total_examples_found := 1 |}).
Proof.
  exact (proj1 (repo_failure_is_local sample_dumps 30 world_one_repo)
           [] ["microsoft/vscode"; "kubernetes/kubernetes"] "rust-lang/rust"
           not_found init eq_refl).
Defined.

(** ** Fatal conditions *)

Lemma repo_events_visited (json_dumps : PyVal -> string) (per_page : nat)
    (W : World) (repo_name : string) :
  let evs := repo_events json_dumps per_page W repo_name in
  In (Print (MsgScraping repo_name)) evs \/
  In (Print (MsgRepoNotFound repo_name)) evs \/
  (exists e, In (Print (MsgApiErrorRepo repo_name e)) evs) \/
  (exists e, In (Print (MsgErrorRepo repo_name e)) evs).
Proof.
  unfold repo_events. destruct (get_repo W repo_name) as [repo|e].
  - left. left. reflexivity.
  - right. destruct (repo_message_cases repo_name e) as [H|[H|H]]; rewrite H.
    + left. left. reflexivity.
    + right. left. exists e. left. reflexivity.
    + right. right. exists e. left. reflexivity.
Qed.

(** C7, as stated, fails: with a credential in the environment that the
    host refuses, the run prints the authentication error and stops; the
    output file is never opened and no summary is printed.  So a present
    credential does not guarantee that the run starts. *)
Lemma authentication_failure_is_fatal :
  truthy (GITHUB_PAT world_bad_credential) = true /\
  run sample_dumps 30 world_bad_credential
  = [Print (MsgAuthError (GithubException 401))] /\
  ~ (forall W, truthy (GITHUB_PAT W) = true ->
               In (OpenW OUTPUT_FILE) (run sample_dumps 30 W)).
Proof.
  split; [reflexivity|]. split; [reflexivity|].
  intros H. specialize (H world_bad_credential eq_refl).
  vm_compute in H. destruct H as [H|[]]. discriminate H.
Qed.

(** C7, amended.  There are two fatal conditions, a missing (or empty)
    credential and a failed authentication: in both the run prints its
    message and returns, the output file is left as it was and no summary
    is printed.  In every other case the run returns normally, opens the
    output, visits every target (each one leaves its banner or a failure
    line naming it) and ends with the summary. *)
Theorem fatal_conditions (json_dumps : PyVal -> string) (per_page : nat)
    (W : World) (previous : option (list string)) :
  let t := run json_dumps per_page W in
  fst (main json_dumps per_page W init) = Ok tt
  /\ (truthy (GITHUB_PAT W) = false ->
      t = [Print MsgFatalNoToken; Print MsgCreatePat] /\
      file_after previous t = previous)
  /\ (forall e,
         truthy (GITHUB_PAT W) = true -> get_user_login W = Raise e ->
         t = [Print (MsgAuthError e)] /\ file_after previous t = previous)
  /\ (forall login,
         truthy (GITHUB_PAT W) = true -> get_user_login W = Ok login ->
         exists evs,
           t = (Print (MsgAuthenticated login) :: OpenW OUTPUT_FILE :: evs
                ++ [Close; Print MsgCurationComplete;
                    Print (MsgTotal (List.length (writes evs)));
                    Print (MsgSavedTo OUTPUT_FILE)])%list /\
           forall repo_name,
             In repo_name TARGET_REPOS ->
             In (Print (MsgScraping repo_name)) evs \/
             In (Print (MsgRepoNotFound repo_name)) evs \/
             (exists e, In (Print (MsgApiErrorRepo repo_name e)) evs) \/
             (exists e, In (Print (MsgErrorRepo repo_name e)) evs)).
Proof.
  intros t. unfold t, run. split; [|split; [|split]].
  - destruct (truthy (GITHUB_PAT W)) eqn:Htoken.
    + destruct (get_user_login W) as [login|e] eqn:Hauth.
      * rewrite (run_started json_dumps per_page W _ Htoken Hauth). reflexivity.
      * rewrite (run_not_authenticated json_dumps per_page W _ Htoken Hauth).
        reflexivity.
    + rewrite (run_no_credential json_dumps per_page W Htoken). reflexivity.
  - intros Htoken. rewrite (run_no_credential json_dumps per_page W Htoken).
    split; reflexivity.
  - intros e Htoken Hauth.
    rewrite (run_not_authenticated json_dumps per_page W _ Htoken Hauth).
    split; reflexivity.
  - intros login Htoken Hauth.
    rewrite (run_started json_dumps per_page W _ Htoken Hauth).
    eexists. split; [reflexivity|].
    intros repo_name Hin.
    pose proof (repo_events_visited json_dumps per_page W repo_name) as Hv.
    cbv zeta in Hv.
    assert (Hsub : forall e,
               In e (repo_events json_dumps per_page W repo_name) ->
               In e (flat_map (repo_events json_dumps per_page W)
                       TARGET_REPOS)).
    { intros e He. apply in_flat_map. exists repo_name. auto. }
    destruct Hv as [H|[H|[[e H]|[e H]]]]; eauto 6.
Qed.

(** ** The delay *)

(** C9, as stated, fails: the turn of a pull request that was not merged
    takes no delay, and a crawl of three pull requests of which one is not
    merged takes two delays. *)
Lemma unmerged_pr_takes_no_delay :
  merged pr_unmerged = Ok false /\
  sleeps (trace (snd (process_pr sample_dumps pr_unmerged init))) = [] /\
  crawl 30 (repo_of [pr_deleted; pr_unmerged; pr_merged])
  = Ok [pr_deleted; pr_unmerged; pr_merged] /\
  sleeps (trace (snd (for_each [pr_deleted; pr_unmerged; pr_merged]
                        (process_pr sample_dumps) init)))
  = [SLEEP_MS; SLEEP_MS].
Proof. repeat split; reflexivity. Qed.

(** Whatever a turn adds to the trace is a write, a printed line or the
    delay. *)
Lemma pr_events_shape (json_dumps : PyVal -> string) (pr : PullRequest)
    (e : Event) :
  In e (pr_events json_dumps pr) ->
  (exists chunk, e = Write chunk) \/ (exists m, e = Print m) \/
  e = Sleep SLEEP_MS.
Proof.
  unfold pr_events, failure_events.
  destruct (merged pr) as [[|]|]; try (intros []).
  destruct (pr_user pr) as [pr_author|]; [|intros []].
  rewrite !in_app_iff, in_map_iff. intros [(c & <- & _)|[H|H]].
  - left. eauto.
  - destruct (listing_failure pr_author (get_review_comments pr));
      simpl in H; [destruct H as [<-|[]]; right; left; eauto | destruct H].
  - destruct H as [<-|[]]. right. right. reflexivity.
Qed.

Lemma pr_events_sleeps (json_dumps : PyVal -> string) (pr : PullRequest) :
  exists evs,
    pr_events json_dumps pr
    = (evs ++ if is_merged pr then
                match pr_raises pr with
                | None => [Sleep SLEEP_MS]
                | Some _ => []
                end
              else [])%list /\
    sleeps evs = [] /\ (is_merged pr = false -> evs = []).
Proof.
  unfold pr_events, pr_raises, is_merged, failure_events.
  destruct (merged pr) as [[|]|];
    try solve [exists nil; repeat split; reflexivity].
  destruct (pr_user pr) as [pr_author|];
    [|exists nil; repeat split; reflexivity].
  eexists. rewrite app_assoc. split; [reflexivity|].
  split; [|discriminate].
  rewrite sleeps_app, sleeps_map_Write.
  destruct (listing_failure pr_author (get_review_comments pr)); reflexivity.
Qed.

Lemma completed_sleeps (json_dumps : PyVal -> string) (prs : list PullRequest) :
  sleeps (flat_map (pr_events json_dumps) (completed prs))
  = repeat SLEEP_MS (List.length (filter is_merged (completed prs))).
Proof.
  induction prs as [|pr prs IH]; [reflexivity|].
  cbn [completed]. destruct (pr_raises pr) eqn:Hr; [reflexivity|].
  cbn [flat_map filter]. rewrite sleeps_app, IH.
  destruct (pr_events_sleeps json_dumps pr) as (evs & -> & Hs & _).
  rewrite sleeps_app, Hs, Hr. destruct (is_merged pr); reflexivity.
Qed.

(** C9, amended.  The turn of a merged pull request (one whose merged flag
    and author were read) ends with exactly one delay of 100 ms, also when
    its comment listing fails; the turn of a pull request that was not
    merged does nothing and takes no delay, and a turn left by a failed
    read takes none either.  So the loop over a crawled sequence takes as
    many delays as there are merged pull requests among those whose turn
    returns, which are all of them when every read succeeds. *)
Theorem delay_after_each_merged_pr (json_dumps : PyVal -> string) :
  (forall (pr : PullRequest) (pr_author : string) (s : State),
      merged pr = Ok true -> pr_user pr = Ok pr_author ->
      exists evs,
        process_pr json_dumps pr s
        = (Ok tt, add_events (evs ++ [Sleep SLEEP_MS]) s) /\
        sleeps evs = [])
  /\
  (forall (pr : PullRequest) (s : State),
      merged pr = Ok false -> process_pr json_dumps pr s = (Ok tt, s))
  /\
  (forall (pr : PullRequest) (e : Exn) (s : State),
      merged pr = Raise e \/ (merged pr = Ok true /\ pr_user pr = Raise e) ->
      process_pr json_dumps pr s = (Raise e, s))
  /\
  (forall (prs : list PullRequest) (s : State),
      exists r s',
        for_each prs (process_pr json_dumps) s = (r, s') /\
        sleeps (trace s')
        = (sleeps (trace s)
           ++ repeat SLEEP_MS
                (List.length (filter is_merged (completed prs))))%list)
  /\
  (forall (prs : list PullRequest) (s : State),
      (forall pr, In pr prs -> pr_raises pr = None) ->
      exists s',
        for_each prs (process_pr json_dumps) s = (Ok tt, s') /\
        sleeps (trace s')
        = (sleeps (trace s)
           ++ repeat SLEEP_MS (List.length (filter is_merged prs)))%list)
  /\ SLEEP_MS = 100.
Proof.
  split; [|split; [|split; [|split; [|split; [|reflexivity]]]]].
  - intros pr a s Hm Hu.
    destruct (pr_events_sleeps json_dumps pr) as (evs & Hevs & Hs & _).
    exists evs. rewrite process_pr_run, Hevs.
    unfold pr_raises, is_merged. rewrite Hm, Hu. auto.
  - intros pr s Hm. rewrite process_pr_run. unfold pr_raises, pr_events.
    rewrite Hm. cbn [outcome]. rewrite add_events_nil. reflexivity.
  - intros pr e s Hread. rewrite process_pr_run. unfold pr_raises, pr_events.
    destruct Hread as [->|[-> ->]]; cbn [outcome]; rewrite add_events_nil;
      reflexivity.
  - intros prs s. do 2 eexists. split; [apply prs_run|].
    cbn [add_events trace]. rewrite sleeps_app, completed_sleeps. reflexivity.
  - intros prs s Hall. destruct (completed_all prs Hall) as [Hc Hf].
    eexists. split; [rewrite prs_run, Hf; reflexivity|].
    cbn [add_events trace]. rewrite sleeps_app, completed_sleeps, Hc.
    reflexivity.
Qed.

(** ** The output file across runs *)

Lemma file_after_opened (t : list Event) (chunks : list string) :
  (forall e, In e t -> is_open e = false) ->
  file_after (Some chunks) t = Some (chunks ++ writes t)%list.
Proof.
  revert chunks. induction t as [|e t IH]; intros chunks Hno.
  - simpl. rewrite app_nil_r. reflexivity.
  - assert (He : is_open e = false) by (apply Hno; left; reflexivity).
    assert (Ht : forall e', In e' t -> is_open e' = false)
      by (intros e' H; apply Hno; right; assumption).
    destruct e; try discriminate He; cbn [file_after fold_left file_step writes];
      try (apply IH; assumption).
    fold (file_after (Some (chunks ++ [chunk])%list) t).
    rewrite IH by assumption. rewrite <- app_assoc. reflexivity.
Qed.

Lemma repo_events_shape (json_dumps : PyVal -> string) (per_page : nat)
    (W : World) (repo_name : string) (e : Event) :
  In e (repo_events json_dumps per_page W repo_name) ->
  (exists chunk, e = Write chunk) \/ (exists m, e = Print m) \/
  e = Sleep SLEEP_MS.
Proof.
  unfold repo_events, failure_events.
  destruct (get_repo W repo_name) as [repo|ex].
  - intros [<-|H]; [right; left; eauto|].
    destruct (crawl per_page repo) as [prs|ex].
    + apply in_app_iff in H. destruct H as [H|H].
      * apply in_flat_map in H. destruct H as (pr & _ & H).
        eapply pr_events_shape. eassumption.
      * destruct (prs_failure prs); simpl in H;
          [destruct H as [<-|[]]; right; left; eauto | destruct H].
    + destruct H as [<-|[]]. right. left. eauto.
  - intros [<-|[]]. right. left. eauto.
Qed.

Lemma repo_events_not_open (json_dumps : PyVal -> string) (per_page : nat)
    (W : World) (repo_name : string) (e : Event) :
  In e (repo_events json_dumps per_page W repo_name) -> is_open e = false.
Proof.
  intros H. apply repo_events_shape in H.
  destruct H as [[c ->]|[[m ->]| ->]]; reflexivity.
Qed.

(** C10.  In a run that passed the credential and authentication checks
    the output file is opened for writing before anything is written, and
    what the file holds after the run is exactly what this run wrote,
    whatever it held before; running again on the same host leaves the
    same content, not twice as much. *)
Theorem output_file_is_truncated (json_dumps : PyVal -> string)
    (per_page : nat) (W : World) (login : string)
    (previous : option (list string)) :
  truthy (GITHUB_PAT W) = true -> get_user_login W = Ok login ->
  let t := run json_dumps per_page W in
  file_after previous t = Some (writes t)
  /\ (exists t1 t2, t = (t1 ++ OpenW OUTPUT_FILE :: t2)%list /\ writes t1 = [])
  /\ file_after (file_after previous t) t = file_after previous t.
Proof.
  intros Htoken Hauth t.
  assert (Hfile : forall content, file_after content t = Some (writes t)).
  { intros content. unfold t, run.
    rewrite (run_started json_dumps per_page W _ Htoken Hauth).
    cbn [snd trace file_after fold_left file_step writes].
    apply (file_after_opened _ []).
    intros e He. apply in_app_iff in He. destruct He as [He|He].
    - apply in_flat_map in He. destruct He as (name & _ & He).
      eapply repo_events_not_open. eassumption.
    - simpl in He. destruct He as [<-|[<-|[<-|[<-|[]]]]]; reflexivity. }
  split; [apply Hfile|]. split; [|rewrite !Hfile; reflexivity].
  exists [Print (MsgAuthenticated login)]. eexists. split; [|reflexivity].
  unfold t, run. rewrite (run_started json_dumps per_page W _ Htoken Hauth).
  reflexivity.
Qed.

Lemma output_file_is_truncated_witness :
  let t := run sample_dumps 30 world_one_repo in
  file_after (Some ["a line of an earlier run"]) t = Some (writes t)
  /\ (exists t1 t2, t = (t1 ++ OpenW OUTPUT_FILE :: t2)%list /\ writes t1 = [])
  /\ file_after (file_after (Some ["a line of an earlier run"]) t) t
     = file_after (Some ["a line of an earlier run"]) t.
Proof.
  apply (output_file_is_truncated sample_dumps 30 world_one_repo "curator"
           (Some ["a line of an earlier run"])); reflexivity.
Defined.

(** * Further properties of the script *)

(** ** The shape of a repository's turn *)

Lemma writes_failure_events (message : Exn -> Msg) (failure : option Exn) :
  writes (failure_events message failure) = [].
Proof. destruct failure; reflexivity. Qed.

Lemma sleeps_failure_events (message : Exn -> Msg) (failure : option Exn) :
  sleeps (failure_events message failure) = [].
Proof. destruct failure; reflexivity. Qed.

Lemma in_failure_events (message : Exn -> Msg) (failure : option Exn)
    (e : Event) :
  In e (failure_events message failure) <->
  exists ex, failure = Some ex /\ e = Print (message ex).
Proof.
  destruct failure as [ex|]; simpl; split.
  - intros [<-|[]]. eauto.
  - intros (ex' & H & ->). injection H as <-. left. reflexivity.
  - intros [].
  - intros (ex & H & _). discriminate H.
Qed.

Lemma writes_flat_map {A} (f : A -> list Event) (l : list A) :
  writes (flat_map f l) = flat_map (fun x => writes (f x)) l.
Proof.
  induction l as [|x l IH]; [reflexivity|].
  cbn [flat_map]. rewrite writes_app, IH. reflexivity.
Qed.

Lemma sleeps_flat_map {A} (f : A -> list Event) (l : list A) :
  sleeps (flat_map f l) = flat_map (fun x => sleeps (f x)) l.
Proof.
  induction l as [|x l IH]; [reflexivity|].
  cbn [flat_map]. rewrite sleeps_app, IH. reflexivity.
Qed.

Section Shapes.

Variable json_dumps : PyVal -> string.
Variable per_page : nat.
Variable W : World.

Lemma repo_events_cases (repo_name : string) :
  (exists e,
      get_repo W repo_name = Raise e /\
      repo_events json_dumps per_page W repo_name
      = [Print (repo_message repo_name e)] /\
      visited_prs per_page W repo_name = [])
  \/ (exists repo e,
         get_repo W repo_name = Ok repo /\ crawl per_page repo = Raise e /\
         repo_events json_dumps per_page W repo_name
         = [Print (MsgScraping repo_name); Print (repo_message repo_name e)] /\
         visited_prs per_page W repo_name = [])
  \/ (exists repo prs,
         get_repo W repo_name = Ok repo /\ crawl per_page repo = Ok prs /\
         repo_events json_dumps per_page W repo_name
         = (Print (MsgScraping repo_name)
            :: flat_map (pr_events json_dumps) (completed prs)
            ++ failure_events (repo_message repo_name) (prs_failure prs))%list /\
         visited_prs per_page W repo_name = completed prs).
Proof.
  unfold repo_events, visited_prs.
  destruct (get_repo W repo_name) as [repo|e].
  - destruct (crawl per_page repo) as [prs|e] eqn:Hcrawl.
    + right. right. exists repo, prs. repeat split; assumption || reflexivity.
    + right. left. exists repo, e. repeat split; assumption || reflexivity.
  - left. exists e. repeat split; reflexivity.
Qed.

Lemma writes_pr_events (pr : PullRequest) :
  writes (pr_events json_dumps pr) = pr_chunks json_dumps pr.
Proof.
  unfold pr_events, pr_chunks.
  destruct (merged pr) as [[|]|]; try reflexivity.
  destruct (pr_user pr) as [pr_author|]; [|reflexivity].
  rewrite !writes_app, writes_map_Write, writes_failure_events.
  simpl. apply app_nil_r.
Qed.

Lemma writes_repo_events (repo_name : string) :
  writes (repo_events json_dumps per_page W repo_name)
  = flat_map (pr_chunks json_dumps) (visited_prs per_page W repo_name).
Proof.
  destruct (repo_events_cases repo_name)
    as [(e & _ & -> & ->)|[(repo & e & _ & _ & -> & ->)
                          |(repo & prs & _ & _ & -> & ->)]];
    try reflexivity.
  cbn [writes]. rewrite writes_app, writes_failure_events, app_nil_r.
  rewrite writes_flat_map.
  apply flat_map_ext. intros pr. apply writes_pr_events.
Qed.

Lemma sleeps_repo_events (repo_name : string) :
  sleeps (repo_events json_dumps per_page W repo_name)
  = repeat SLEEP_MS
      (List.length (filter is_merged (visited_prs per_page W repo_name))).
Proof.
  destruct (repo_events_cases repo_name)
    as [(e & _ & -> & ->)|[(repo & e & _ & _ & -> & ->)
                          |(repo & prs & _ & _ & -> & ->)]];
    try reflexivity.
  cbn [sleeps]. rewrite sleeps_app, sleeps_failure_events, app_nil_r.
  apply completed_sleeps.
Qed.

(** The lines a pull request's turn prints are those of its handler. *)
Lemma pr_events_print (pr : PullRequest) (m : Msg) :
  In (Print m) (pr_events json_dumps pr) <->
  exists pr_author e,
    merged pr = Ok true /\ pr_user pr = Ok pr_author /\
    listing_failure pr_author (get_review_comments pr) = Some e /\
    m = pr_message pr e.
Proof.
  unfold pr_events.
  destruct (merged pr) as [[|]|ex];
    try (split; [intros [] | intros (a & e & H & _); discriminate H]).
  destruct (pr_user pr) as [pr_author|ex];
    [|split; [intros [] | intros (a & e & _ & H & _); discriminate H]].
  rewrite !in_app_iff, in_map_iff, in_failure_events. split.
  - intros [(c & Hc & _)|[(e & He & H)|H]]; [discriminate Hc| |].
    + injection H as ->. exists pr_author, e. auto.
    + destruct H as [H|[]]. discriminate H.
  - intros (a & e & _ & Ha & He & ->). injection Ha as <-.
    right. left. eauto.
Qed.

Lemma repo_events_no_bracket (repo_name : string) (e : Event) :
  In e (repo_events json_dumps per_page W repo_name) -> is_bracket e = false.
Proof.
  intros H. apply repo_events_shape in H.
  destruct H as [[c ->]|[[m ->]| ->]]; reflexivity.
Qed.

(** The trace of a started run, as a list. *)
Lemma run_trace_started (login : string) :
  truthy (GITHUB_PAT W) = true -> get_user_login W = Ok login ->
  let evs := flat_map (repo_events json_dumps per_page W) TARGET_REPOS in
  run json_dumps per_page W
  = (Print (MsgAuthenticated login) :: OpenW OUTPUT_FILE :: evs
     ++ [Close; Print MsgCurationComplete;
         Print (MsgTotal (List.length (writes evs)));
         Print (MsgSavedTo OUTPUT_FILE)])%list.
Proof.
  intros Htoken Hauth evs. unfold run.
  rewrite (run_started json_dumps per_page W _ Htoken Hauth). reflexivity.
Qed.

Lemma writes_targets (targets : list string) :
  writes (flat_map (repo_events json_dumps per_page W) targets)
  = flat_map
      (fun repo_name =>
         flat_map (pr_chunks json_dumps) (visited_prs per_page W repo_name))
      targets.
Proof.
  rewrite writes_flat_map. apply flat_map_ext. intros name.
  apply writes_repo_events.
Qed.

Lemma writes_run_started (login : string) :
  truthy (GITHUB_PAT W) = true -> get_user_login W = Ok login ->
  writes (run json_dumps per_page W) = expected_chunks json_dumps per_page W.
Proof.
  intros Htoken Hauth. rewrite (run_trace_started login Htoken Hauth).
  cbn [writes]. rewrite writes_app. cbn [writes]. rewrite app_nil_r.
  apply writes_targets.
Qed.

Lemma file_after_started (login : string) (content : option (list string)) :
  truthy (GITHUB_PAT W) = true -> get_user_login W = Ok login ->
  file_after content (run json_dumps per_page W)
  = Some (writes (run json_dumps per_page W)).
Proof.
  intros Htoken Hauth. rewrite (run_trace_started login Htoken Hauth).
  cbn [file_after fold_left file_step writes].
  apply (file_after_opened _ []).
  intros e He. apply in_app_iff in He. destruct He as [He|He].
  - apply in_flat_map in He. destruct He as (name & _ & He).
    eapply repo_events_not_open. eassumption.
  - simpl in He. destruct He as [<-|[<-|[<-|[<-|[]]]]]; reflexivity.
Qed.

End Shapes.

(** ** What ends up in the output *)

Lemma accepted_reached (pr_author : string) (earlier later : list Comment)
    (comment : Comment) :
  (forall c e, In c earlier -> is_high_quality c pr_author <> Raise e) ->
  is_high_quality comment pr_author = Ok true ->
  In comment (accepted pr_author (earlier ++ comment :: later)).
Proof.
  intros Hb Hq. induction earlier as [|c earlier IH]; cbn [app accepted].
  - rewrite Hq. left. reflexivity.
  - assert (IH' : In comment (accepted pr_author (earlier ++ comment :: later)))
      by (apply IH; intros c' e Hc'; apply Hb; right; assumption).
    destruct (is_high_quality c pr_author) as [[|]|e] eqn:Hc.
    + right. assumption.
    + assumption.
    + exfalso. apply (Hb c e (or_introl eq_refl)). assumption.
Qed.

(** X1.  In a run that got past the credential and the authentication,
    every comment that the filter accepts is written, provided it is
    yielded by the listing of a merged pull request whose turn is taken
    and the filter raised on no comment yielded before it; a listing that
    raises later does not take it back. *)
Theorem qualifying_comments_are_written (json_dumps : PyVal -> string)
    (per_page : nat) (W : World) (login repo_name pr_author : string)
    (pr : PullRequest) (comment : Comment) (earlier later : list Comment) :
  truthy (GITHUB_PAT W) = true -> get_user_login W = Ok login ->
  In repo_name TARGET_REPOS -> In pr (visited_prs per_page W repo_name) ->
  merged pr = Ok true -> pr_user pr = Ok pr_author ->
  yielded (get_review_comments pr) = (earlier ++ comment :: later)%list ->
  (forall c e, In c earlier -> is_high_quality c pr_author <> Raise e) ->
  is_high_quality comment pr_author = Ok true ->
  In (Write (chunk_of json_dumps comment)) (run json_dumps per_page W).
Proof.
  intros Htoken Hauth Hname Hpr Hm Hu Hy Hb Hq.
  apply in_writes. rewrite (writes_run_started _ _ _ login Htoken Hauth).
  unfold expected_chunks. apply in_flat_map. exists repo_name.
  split; [assumption|]. apply in_flat_map. exists pr. split; [assumption|].
  unfold pr_chunks, gold_chunks. rewrite Hm, Hu, Hy. apply in_map.
  apply accepted_reached; assumption.
Qed.

Lemma qualifying_comments_are_written_witness :
  In (Write (chunk_of sample_dumps gold_comment))
    (run sample_dumps 30 world_one_repo).
Proof.
  apply (qualifying_comments_are_written sample_dumps 30 world_one_repo
           "curator" "microsoft/vscode" "alice" pr_merged gold_comment [] []);
    try reflexivity.
  - right. left. reflexivity.
  - right. right. left. reflexivity.
  - intros c e [].
Defined.

(** X2.  After such a run the output file holds, whatever it held before,
    the lines of the accepted comments in this order: target by target as
    configured, pull request by pull request as the first page lists them
    (up to the first one whose flag or author cannot be read), comment by
    comment as the listing yields them (up to the first one on which the
    filter raises). *)
Theorem output_file_content (json_dumps : PyVal -> string) (per_page : nat)
    (W : World) (login : string) (previous : option (list string)) :
  truthy (GITHUB_PAT W) = true -> get_user_login W = Ok login ->
  file_after previous (run json_dumps per_page W)
  = Some (expected_chunks json_dumps per_page W).
Proof.
  intros Htoken Hauth.
  rewrite (file_after_started _ _ _ login previous Htoken Hauth).
  rewrite (writes_run_started _ _ _ login Htoken Hauth). reflexivity.
Qed.

Lemma output_file_content_witness :
  expected_chunks sample_dumps 30 world_scenario_E_raw = [] /\
  expected_chunks sample_dumps 30 world_scenario_E
  = repeat (chunk_of sample_dumps gold_comment) 4 /\
  file_after (Some ["a line of an earlier run"])
    (run sample_dumps 30 world_scenario_E_raw)
  = Some (expected_chunks sample_dumps 30 world_scenario_E_raw).
Proof.
  split; [reflexivity|]. split; [reflexivity|].
  apply (output_file_content sample_dumps 30 world_scenario_E_raw "curator");
    reflexivity.
Defined.

(** X3.  The total printed in the summary, and the counter at the end, is
    the number of lines the output file holds after the run. *)
Theorem summary_counts_file_lines (json_dumps : PyVal -> string)
    (per_page : nat) (W : World) (login : string)
    (previous : option (list string)) :
  truthy (GITHUB_PAT W) = true -> get_user_login W = Ok login ->
  exists t lines,
    file_after previous (run json_dumps per_page W) = Some lines /\
    run json_dumps per_page W
    = (t ++ [Print MsgCurationComplete; Print (MsgTotal (List.length lines));
             Print (MsgSavedTo OUTPUT_FILE)])%list /\
    total_examples_found (snd (main json_dumps per_page W init))
    = List.length lines.
Proof.
  intros Htoken Hauth.
  set (evs := flat_map (repo_events json_dumps per_page W) TARGET_REPOS).
  exists (Print (MsgAuthenticated login) :: OpenW OUTPUT_FILE :: evs
          ++ [Close])%list,
         (writes (run json_dumps per_page W)).
  assert (Hw : writes (run json_dumps per_page W) = writes evs).
  { rewrite (run_trace_started _ _ _ login Htoken Hauth). fold evs.
    cbn [writes]. rewrite writes_app. apply app_nil_r. }
  split; [apply (file_after_started _ _ _ login previous Htoken Hauth)|].
  rewrite Hw. split.
  - rewrite (run_trace_started _ _ _ login Htoken Hauth). fold evs.
    cbn [app]. rewrite <- app_assoc. reflexivity.
  - rewrite (run_started json_dumps per_page W _ Htoken Hauth). reflexivity.
Qed.

Lemma summary_counts_file_lines_witness :
  exists t lines,
    file_after None (run sample_dumps 30 world_scenario_E) = Some lines /\
    run sample_dumps 30 world_scenario_E
    = (t ++ [Print MsgCurationComplete; Print (MsgTotal (List.length lines));
             Print (MsgSavedTo OUTPUT_FILE)])%list /\
    total_examples_found (snd (main sample_dumps 30 world_scenario_E init))
    = List.length lines.
Proof.
  apply (summary_counts_file_lines sample_dumps 30 world_scenario_E "curator"
           None); reflexivity.
Defined.

(** ** A page request that fails *)

(** X4.  When a target is opened but the request for its page of pull
    requests raises, the turn of that target prints its banner and one
    failure line naming it; it writes nothing and leaves the counter as it
    was, and the loop goes on with the next target. *)
Theorem page_failure_is_local (json_dumps : PyVal -> string) (per_page : nat)
    (W : World) (repo_name : string) (repo : Repository) (e : Exn)
    (after : list string) (s : State) :
  get_repo W repo_name = Ok repo -> pulls_failure repo = Some e ->
  exists m,
    (m = MsgRepoNotFound repo_name \/ m = MsgApiErrorRepo repo_name e \/
     m = MsgErrorRepo repo_name e) /\
    process_repo json_dumps per_page W repo_name s
    = (Ok tt,
       {| trace := trace s ++ [Print (MsgScraping repo_name); Print m];
          total_examples_found := total_examples_found s |}) /\
    for_each (repo_name :: after) (process_repo json_dumps per_page W) s
    = for_each after (process_repo json_dumps per_page W)
        {| trace := trace s ++ [Print (MsgScraping repo_name); Print m];
           total_examples_found := total_examples_found s |}.
Proof.
  intros Hrepo Hfail. exists (repo_message repo_name e).
  split; [apply repo_message_cases|].
  assert (Hturn : process_repo json_dumps per_page W repo_name s
                  = (Ok tt,
                     {| trace := trace s ++ [Print (MsgScraping repo_name);
                                             Print (repo_message repo_name e)];
                        total_examples_found := total_examples_found s |})).
  { rewrite process_repo_run. unfold repo_events.
    rewrite Hrepo, crawl_unfold, Hfail. same_state. }
  split; [exact Hturn|].
  cbn [for_each]. rewrite (bind_run _ Hturn). reflexivity.
Qed.

Lemma page_failure_is_local_witness :
  exists m,
    (m = MsgRepoNotFound "rust-lang/rust" \/
     m = MsgApiErrorRepo "rust-lang/rust" (GithubException 500) \/
     m = MsgErrorRepo "rust-lang/rust" (GithubException 500)) /\
    process_repo sample_dumps 30 world_unlisted "rust-lang/rust" init
    = (Ok tt,
       {| trace := trace init ++ [Print (MsgScraping "rust-lang/rust"); Print m];
          total_examples_found := total_examples_found init |}) /\
    for_each ("rust-lang/rust" :: ["pytorch/pytorch"])
      (process_repo sample_dumps 30 world_unlisted) init
    = for_each ["pytorch/pytorch"] (process_repo sample_dumps 30 world_unlisted)
        {| trace := trace init
                    ++ [Print (MsgScraping "rust-lang/rust"); Print m];
           total_examples_found := total_examples_found init |}.
Proof.
  apply (page_failure_is_local sample_dumps 30 world_unlisted "rust-lang/rust"
           repo_unlisted (GithubException 500) ["pytorch/pytorch"] init);
    reflexivity.
Defined.

(** ** What leaves no trace *)

Lemma unmerged_dropped (json_dumps : PyVal -> string) (prs : list PullRequest) :
  flat_map (pr_events json_dumps)
    (completed (filter (fun pr => negb (is_unmerged pr)) prs))
  = flat_map (pr_events json_dumps) (completed prs) /\
  prs_failure (filter (fun pr => negb (is_unmerged pr)) prs)
  = prs_failure prs.
Proof.
  induction prs as [|pr prs [IHe IHf]]; [split; reflexivity|].
  cbn [filter]. destruct (is_unmerged pr) eqn:Hu; cbn [negb].
  - assert (Hm : merged pr = Ok false).
    { unfold is_unmerged in Hu. destruct (merged pr) as [[|]|];
        discriminate Hu || reflexivity. }
    cbn [completed prs_failure]. unfold pr_raises. rewrite Hm.
    cbn [flat_map]. unfold pr_events at 2. rewrite Hm. split; assumption.
  - cbn [completed prs_failure]. destruct (pr_raises pr); [split; reflexivity|].
    cbn [flat_map]. rewrite IHe. split; [reflexivity | assumption].
Qed.

(** X5.  The loop over pull requests does exactly what it does once the
    pull requests whose merged flag reads false are taken out: such a pull
    request changes neither the trace, the counter nor the outcome of the
    loop, wherever it stands in the sequence. *)
Theorem unmerged_prs_are_transparent (json_dumps : PyVal -> string)
    (prs : list PullRequest) (s : State) :
  for_each prs (process_pr json_dumps) s
  = for_each (filter (fun pr => negb (is_unmerged pr)) prs)
      (process_pr json_dumps) s.
Proof.
  rewrite !prs_run. destruct (unmerged_dropped json_dumps prs) as [-> ->].
  reflexivity.
Qed.

Lemma rejected_dropped (pr_author : string) (comments : list Comment) :
  accepted pr_author
    (filter (fun c => negb (is_rejected pr_author c)) comments)
  = accepted pr_author comments /\
  filter_failure pr_author
    (filter (fun c => negb (is_rejected pr_author c)) comments)
  = filter_failure pr_author comments.
Proof.
  induction comments as [|c comments [IHa IHf]]; [split; reflexivity|].
  cbn [filter]. destruct (is_rejected pr_author c) eqn:Hrej; cbn [negb];
    unfold is_rejected in Hrej; cbn [accepted filter_failure];
    destruct (is_high_quality c pr_author) as [[|]|e]; try discriminate Hrej.
  - split; assumption.
  - rewrite IHa. split; [reflexivity | assumption].
  - split; reflexivity.
Qed.

(** X6.  The loop over the comments of a pull request does exactly what it
    does once the comments that the filter rejects are taken out: a
    comment on which the expression evaluates to false changes neither the
    trace, the counter nor the outcome of the loop.  (A comment on which
    the expression raises is not one of them: it ends the loop.) *)
Theorem rejected_comments_are_transparent (json_dumps : PyVal -> string)
    (pr_author : string) (comments : list Comment) (s : State) :
  for_each comments (process_comment json_dumps pr_author) s
  = for_each (filter (fun c => negb (is_rejected pr_author c)) comments)
      (process_comment json_dumps pr_author) s.
Proof.
  rewrite !comments_run. unfold gold_chunks.
  destruct (rejected_dropped pr_author comments) as [-> ->]. reflexivity.
Qed.

(** ** The filter and the reactions *)

(** X7.  Acceptance does not look at the diff excerpt and only grows with
    the reactions: a comment with the body and author of an accepted one,
    and at least its total and plus-one counts, is accepted too. *)
Theorem is_high_quality_monotone (comment comment' : Comment)
    (pr_author : string) (total plus total' plus' : Z) :
  is_high_quality comment pr_author = Ok true ->
  body comment' = body comment -> user comment' = user comment ->
  reactions comment = Counts total plus ->
  reactions comment' = Counts total' plus' ->
  (total <= total')%Z -> (plus <= plus')%Z ->
  is_high_quality comment' pr_author = Ok true.
Proof.
  intros Hq Hb Hu Hr Hr' Ht Hp. apply is_high_quality_spec in Hq.
  destruct Hq as (b & t & p & Hbody & Hne & Hlen & Hauthor & Hc & Hw).
  rewrite Hr in Hc. injection Hc as <- <-.
  apply is_high_quality_spec. exists b, total', plus'.
  rewrite Hb, Hu. repeat split; try assumption. lia.
Qed.

Lemma is_high_quality_monotone_witness :
  is_high_quality
    {| body := Some body80; user := "bob"; reactions := Counts 5 4;
       diff_hunk := EmptyString |} "alice" = Ok true.
Proof.
  apply (is_high_quality_monotone gold_comment _ "alice" 3 0 5 4);
    try reflexivity.
  - discriminate.
  - discriminate.
Defined.

(** ** The output file is opened once and closed once *)

(** X8.  A run that got past the credential and the authentication opens
    the output file once, right after the authentication line, and closes
    it once; everything it writes lies between the two, and after the
    closing it only prints. *)
Theorem file_events_are_bracketed (json_dumps : PyVal -> string)
    (per_page : nat) (W : World) (login : string) :
  truthy (GITHUB_PAT W) = true -> get_user_login W = Ok login ->
  exists inside summary,
    run json_dumps per_page W
    = (Print (MsgAuthenticated login) :: OpenW OUTPUT_FILE :: inside
       ++ Close :: summary)%list /\
    (forall e, In e inside -> is_bracket e = false) /\
    (forall e, In e summary -> exists m, e = Print m).
Proof.
  intros Htoken Hauth.
  exists (flat_map (repo_events json_dumps per_page W) TARGET_REPOS).
  eexists. split; [apply (run_trace_started _ _ _ login Htoken Hauth)|].
  split.
  - intros e He. apply in_flat_map in He. destruct He as (name & _ & He).
    eapply repo_events_no_bracket. eassumption.
  - intros e [<-|[<-|[<-|[]]]]; eexists; reflexivity.
Qed.

Lemma file_events_are_bracketed_witness :
  exists inside summary,
    run sample_dumps 30 world_one_repo
    = (Print (MsgAuthenticated "curator") :: OpenW OUTPUT_FILE :: inside
       ++ Close :: summary)%list /\
    (forall e, In e inside -> is_bracket e = false) /\
    (forall e, In e summary -> exists m, e = Print m).
Proof.
  apply (file_events_are_bracketed sample_dumps 30 world_one_repo "curator");
    reflexivity.
Defined.

(** ** What the printed lines tell *)

Lemma flat_map_ext_on {A B} (f g : A -> list B) (l : list A) :
  (forall x, In x l -> f x = g x) -> flat_map f l = flat_map g l.
Proof.
  induction l as [|x l IH]; intros H; [reflexivity|].
  cbn [flat_map]. rewrite (H x (or_introl eq_refl)), IH; [reflexivity|].
  intros y Hy. apply H. right. assumption.
Qed.

Lemma pr_message_skipping (pr : PullRequest) (e : Exn) (n : Z) :
  pr_message pr e = MsgSkippingPR n <->
  e = GithubException 404 /\ number pr = n.
Proof.
  destruct e as [status|what]; simpl.
  - destruct (Z.eqb_spec status 404) as [->|Hne]; split.
    + intros H. injection H as <-. auto.
    + intros [_ <-]. reflexivity.
    + discriminate.
    + intros [H _]. congruence.
  - split; [discriminate|]. intros [H _]. discriminate H.
Qed.

Lemma pr_message_not_banner (pr : PullRequest) (e : Exn) (repo_name : string) :
  pr_message pr e <> MsgScraping repo_name.
Proof.
  destruct e as [status|what]; simpl; [destruct (status =? 404)%Z|];
    discriminate.
Qed.

Lemma filter_failure_none (pr_author : string) (comments : list Comment) :
  filter_failure pr_author comments = None <->
  forall c e, In c comments -> is_high_quality c pr_author <> Raise e.
Proof.
  induction comments as [|c comments IH]; cbn [filter_failure].
  - split; [intros _ c e [] | reflexivity].
  - destruct (is_high_quality c pr_author) as [q|e] eqn:Hq.
    + rewrite IH. split.
      * intros H c' e [<-|Hc']; [congruence | apply H; assumption].
      * intros H c' e Hc'. apply H. right. assumption.
    + split; [discriminate|]. intros H. exfalso.
      apply (H c e (or_introl eq_refl)). assumption.
Qed.

Lemma filter_failure_some (pr_author : string) (comments : list Comment)
    (e : Exn) :
  filter_failure pr_author comments = Some e -> e = attribute_error.
Proof.
  induction comments as [|c comments IH]; cbn [filter_failure]; [discriminate|].
  destruct (is_high_quality c pr_author) as [q|e'] eqn:Hq; [assumption|].
  intros H. injection H as <-. apply is_high_quality_raises in Hq. tauto.
Qed.

(** The handler sees status 404 exactly when the filter raised on no
    yielded comment and the listing then raised it. *)
Lemma listing_not_found (pr_author : string) (l : Listing Comment) :
  listing_failure pr_author l = Some (GithubException 404) <->
  (forall c e, In c (yielded l) -> is_high_quality c pr_author <> Raise e) /\
  raised l = Some (GithubException 404).
Proof.
  unfold listing_failure. rewrite <- filter_failure_none.
  destruct (filter_failure pr_author (yielded l)) as [e|] eqn:Hf.
  - apply filter_failure_some in Hf. subst e. split.
    + discriminate.
    + intros [H _]. discriminate H.
  - tauto.
Qed.

Section Lines.

Variable json_dumps : PyVal -> string.
Variable per_page : nat.
Variable W : World.

(** The lines printed during the turn of one target. *)
Lemma repo_events_print (repo_name : string) (m : Msg) :
  In (Print m) (repo_events json_dumps per_page W repo_name) ->
  (m = MsgScraping repo_name /\ exists repo, get_repo W repo_name = Ok repo)
  \/ (exists e, m = repo_message repo_name e)
  \/ (exists pr,
         In pr (visited_prs per_page W repo_name) /\
         In (Print m) (pr_events json_dumps pr)).
Proof.
  destruct (repo_events_cases json_dumps per_page W repo_name)
    as [(ex & Hrepo & -> & ->)|[(repo & ex & Hrepo & Hcrawl & -> & ->)
                               |(repo & prs & Hrepo & Hcrawl & -> & ->)]].
  - intros [H|[]]. injection H as <-. right. left. eauto.
  - intros [H|[H|[]]]; injection H as <-.
    + left. eauto.
    + right. left. eauto.
  - intros [H|H].
    + injection H as <-. left. eauto.
    + apply in_app_iff in H. destruct H as [H|H].
      * apply in_flat_map in H. destruct H as (pr & Hpr & H).
        right. right. eauto.
      * apply in_failure_events in H. destruct H as (e & _ & H).
        injection H as ->. right. left. eauto.
Qed.

Lemma banner_printed (repo_name : string) (repo : Repository) :
  get_repo W repo_name = Ok repo ->
  In (Print (MsgScraping repo_name))
    (repo_events json_dumps per_page W repo_name).
Proof.
  intros H. unfold repo_events. rewrite H. left. reflexivity.
Qed.

Lemma pr_line_printed (repo_name : string) (pr : PullRequest) (m : Msg) :
  In pr (visited_prs per_page W repo_name) ->
  In (Print m) (pr_events json_dumps pr) ->
  In (Print m) (repo_events json_dumps per_page W repo_name).
Proof.
  destruct (repo_events_cases json_dumps per_page W repo_name)
    as [(ex & Hrepo & -> & ->)|[(repo & ex & Hrepo & Hcrawl & -> & ->)
                               |(repo & prs & Hrepo & Hcrawl & -> & ->)]];
    try (intros []).
  intros Hpr Hm. right. apply in_app_iff. left. apply in_flat_map. eauto.
Qed.

(** The lines printed by a started run. *)
Lemma run_print (login : string) (m : Msg) :
  truthy (GITHUB_PAT W) = true -> get_user_login W = Ok login ->
  In (Print m) (run json_dumps per_page W) <->
  m = MsgAuthenticated login
  \/ (exists repo_name,
         In repo_name TARGET_REPOS /\
         In (Print m) (repo_events json_dumps per_page W repo_name))
  \/ m = MsgCurationComplete
  \/ m = MsgTotal (List.length (writes (run json_dumps per_page W)))
  \/ m = MsgSavedTo OUTPUT_FILE.
Proof.
  intros Htoken Hauth.
  assert (Hw : writes (run json_dumps per_page W)
               = writes (flat_map (repo_events json_dumps per_page W)
                           TARGET_REPOS)).
  { rewrite (run_trace_started _ _ _ login Htoken Hauth).
    cbn [writes]. rewrite writes_app. apply app_nil_r. }
  rewrite Hw. rewrite (run_trace_started _ _ _ login Htoken Hauth).
  cbn [In]. rewrite in_app_iff, in_flat_map. cbn [In]. split.
  - intros [H|[H|[H|[H|[H|[H|[H|[]]]]]]]];
      try discriminate H; try (injection H as <-); auto 6.
  - intros [-> | [H | [-> | [-> | ->]]]]; auto 10.
Qed.

End Lines.

(** X9.  In a run that got past the credential and the authentication,
    the line "Skipping PR" with a number is printed exactly when a merged
    pull request of that number, whose turn is taken, has a comment
    listing on whose comments the filter does not raise and that then
    raises a GithubException of status 404. *)
Theorem skipping_line_iff (json_dumps : PyVal -> string) (per_page : nat)
    (W : World) (login : string) (n : Z) :
  truthy (GITHUB_PAT W) = true -> get_user_login W = Ok login ->
  In (Print (MsgSkippingPR n)) (run json_dumps per_page W) <->
  exists repo_name pr pr_author,
    In repo_name TARGET_REPOS /\ In pr (visited_prs per_page W repo_name) /\
    merged pr = Ok true /\ pr_user pr = Ok pr_author /\ number pr = n /\
    (forall c e,
        In c (yielded (get_review_comments pr)) ->
        is_high_quality c pr_author <> Raise e) /\
    raised (get_review_comments pr) = Some (GithubException 404).
Proof.
  intros Htoken Hauth.
  rewrite (run_print json_dumps per_page W login _ Htoken Hauth). split.
  - intros [H|[(name & Hname & H)|[H|[H|H]]]]; try discriminate H.
    apply repo_events_print in H.
    destruct H as [[H _]|[(e & H)|(pr & Hpr & H)]]; [discriminate H| |].
    + destruct (repo_message_cases name e) as [E|[E|E]]; congruence.
    + apply pr_events_print in H. destruct H as (a & e & Hm & Hu & He & H).
      symmetry in H. apply pr_message_skipping in H. destruct H as [-> Hn].
      apply listing_not_found in He. destruct He as [Hf Hr].
      exists name, pr, a. repeat split; assumption.
  - intros (name & pr & a & Hname & Hpr & Hm & Hu & Hn & Hf & Hr).
    right. left. exists name. split; [assumption|].
    apply (pr_line_printed _ _ _ name pr); [assumption|].
    apply pr_events_print. exists a, (GithubException 404).
    repeat split; try assumption.
    + apply listing_not_found. split; assumption.
    + symmetry. apply pr_message_skipping. auto.
Qed.

Lemma skipping_line_iff_witness :
  In (Print (MsgSkippingPR 9)) (run sample_dumps 30 world_one_repo) <->
  exists repo_name pr pr_author,
    In repo_name TARGET_REPOS /\
    In pr (visited_prs 30 world_one_repo repo_name) /\
    merged pr = Ok true /\ pr_user pr = Ok pr_author /\ number pr = 9%Z /\
    (forall c e,
        In c (yielded (get_review_comments pr)) ->
        is_high_quality c pr_author <> Raise e) /\
    raised (get_review_comments pr) = Some (GithubException 404).
Proof.
  apply (skipping_line_iff sample_dumps 30 world_one_repo "curator" 9);
    reflexivity.
Defined.

(** X10.  In such a run the banner of a repository is printed exactly for
    the targets whose lookup succeeds, also when the page request that
    follows fails; no pull-request or failure line can be mistaken for
    it. *)
Theorem scraping_banner_iff (json_dumps : PyVal -> string) (per_page : nat)
    (W : World) (login repo_name : string) :
  truthy (GITHUB_PAT W) = true -> get_user_login W = Ok login ->
  In (Print (MsgScraping repo_name)) (run json_dumps per_page W) <->
  In repo_name TARGET_REPOS /\ exists repo, get_repo W repo_name = Ok repo.
Proof.
  intros Htoken Hauth.
  rewrite (run_print json_dumps per_page W login _ Htoken Hauth). split.
  - intros [H|[(name & Hname & H)|[H|[H|H]]]]; try discriminate H.
    apply repo_events_print in H.
    destruct H as [[H Hrepo]|[(e & H)|(pr & Hpr & H)]].
    + injection H as <-. auto.
    + destruct (repo_message_cases name e) as [E|[E|E]]; congruence.
    + apply pr_events_print in H. destruct H as (a & e & _ & _ & _ & H).
      symmetry in H. apply pr_message_not_banner in H. destruct H.
  - intros [Hname [repo Hrepo]]. right. left. exists repo_name.
    split; [assumption|]. eapply banner_printed. eassumption.
Qed.

Lemma scraping_banner_iff_witness :
  In (Print (MsgScraping "rust-lang/rust")) (run sample_dumps 30 world_unlisted)
  <-> In "rust-lang/rust" TARGET_REPOS /\
      exists repo, get_repo world_unlisted "rust-lang/rust" = Ok repo.
Proof.
  apply (scraping_banner_iff sample_dumps 30 world_unlisted "curator"
           "rust-lang/rust"); reflexivity.
Defined.

(** ** What a run depends on *)

Lemma repo_events_same_lookup (json_dumps : PyVal -> string) (per_page : nat)
    (W W' : World) (repo_name : string) :
  get_repo W repo_name = get_repo W' repo_name ->
  repo_events json_dumps per_page W repo_name
  = repo_events json_dumps per_page W' repo_name.
Proof. intros H. unfold repo_events. rewrite H. reflexivity. Qed.

(** X11.  A run looks up the four targets and nothing else: two hosts that
    give the same credential, the same answer to the authentication and
    the same answer to the lookup of every target give the same run,
    whatever they hold under other names. *)
Theorem run_depends_on_targets_only (json_dumps : PyVal -> string)
    (per_page : nat) (W W' : World) :
  GITHUB_PAT W = GITHUB_PAT W' -> get_user_login W = get_user_login W' ->
  (forall repo_name,
      In repo_name TARGET_REPOS -> get_repo W repo_name = get_repo W' repo_name) ->
  main json_dumps per_page W init = main json_dumps per_page W' init.
Proof.
  intros Htoken Hauth Hrepos.
  destruct (truthy (GITHUB_PAT W)) eqn:Ht.
  - assert (Ht' : truthy (GITHUB_PAT W') = true) by (rewrite <- Htoken; exact Ht).
    destruct (get_user_login W) as [login|e] eqn:Hl.
    + symmetry in Hauth.
      rewrite (run_started json_dumps per_page W _ Ht Hl).
      rewrite (run_started json_dumps per_page W' _ Ht' Hauth).
      rewrite (flat_map_ext_on (repo_events json_dumps per_page W)
                 (repo_events json_dumps per_page W') TARGET_REPOS);
        [reflexivity|].
      intros name Hname. apply repo_events_same_lookup. auto.
    + symmetry in Hauth.
      rewrite (run_not_authenticated json_dumps per_page W _ Ht Hl).
      rewrite (run_not_authenticated json_dumps per_page W' _ Ht' Hauth).
      reflexivity.
  - assert (Ht' : truthy (GITHUB_PAT W') = false) by (rewrite <- Htoken; exact Ht).
    rewrite (run_no_credential json_dumps per_page W Ht).
    rewrite (run_no_credential json_dumps per_page W' Ht'). reflexivity.
Qed.

Lemma run_depends_on_targets_only_witness :
  get_repo world_one_repo "torvalds/linux"
  <> get_repo world_one_repo_more "torvalds/linux" /\
  main sample_dumps 30 world_one_repo init
  = main sample_dumps 30 world_one_repo_more init.
Proof.
  split; [discriminate|].
  apply (run_depends_on_targets_only sample_dumps 30 world_one_repo
           world_one_repo_more); try reflexivity.
  intros name [<-|[<-|[<-|[<-|[]]]]]; reflexivity.
Defined.

(** ** The delays of a run *)

Lemma repeat_flat_map {A B} (a : B) (p : A -> bool) (f : string -> list A)
    (l : list string) :
  flat_map (fun x => repeat a (List.length (filter p (f x)))) l
  = repeat a (List.length (filter p (flat_map f l))).
Proof.
  induction l as [|x l IH]; [reflexivity|].
  cbn [flat_map]. rewrite IH, filter_app, length_app, repeat_app.
  reflexivity.
Qed.

(** X12.  A run that got past the credential and the authentication takes
    one delay of 100 ms for every merged pull request whose turn it takes
    and that returns, and no other: none for a pull request that was not merged, for a target that
    cannot be opened or listed, or around the authentication and the
    summary. *)
Theorem delays_of_a_run (json_dumps : PyVal -> string) (per_page : nat)
    (W : World) (login : string) :
  truthy (GITHUB_PAT W) = true -> get_user_login W = Ok login ->
  sleeps (run json_dumps per_page W)
  = repeat 100
      (List.length
         (filter is_merged (flat_map (visited_prs per_page W) TARGET_REPOS))).
Proof.
  intros Htoken Hauth. rewrite (run_trace_started _ _ _ login Htoken Hauth).
  cbn [sleeps]. rewrite sleeps_app. cbn [sleeps]. rewrite app_nil_r.
  rewrite sleeps_flat_map.
  rewrite <- (repeat_flat_map 100 is_merged (visited_prs per_page W)).
  apply flat_map_ext. intros name. apply sleeps_repo_events.
Qed.

Lemma delays_of_a_run_witness :
  sleeps (run sample_dumps 30 world_one_repo)
  = repeat 100
      (List.length
         (filter is_merged
            (flat_map (visited_prs 30 world_one_repo) TARGET_REPOS))).
Proof.
  apply (delays_of_a_run sample_dumps 30 world_one_repo "curator");
    reflexivity.
Defined.

(** ** Bounds of the crawl *)

(** X13.  What the crawl returns is a leading part of the repository's
    closed pull requests, in the host's order, of at most
    PRS_TO_CHECK_PER_REPO items, at most one page, and at most what the
    repository has. *)
Theorem crawl_is_a_bounded_prefix (per_page : nat) (repo : Repository)
    (prs : list PullRequest) :
  crawl per_page repo = Ok prs ->
  (exists rest, closed_pulls repo = (prs ++ rest)%list) /\
  List.length prs <= PRS_TO_CHECK_PER_REPO /\
  List.length prs <= per_page /\
  List.length prs <= List.length (closed_pulls repo).
Proof.
  intros H. apply crawl_first_page in H. destruct H as [_ ->].
  split.
  - eexists. symmetry. apply firstn_skipn.
  - rewrite length_firstn. lia.
Qed.

Lemma crawl_is_a_bounded_prefix_witness :
  (exists rest, closed_pulls repo31 = (repeat pr_merged 30 ++ rest)%list) /\
  List.length (repeat pr_merged 30) <= PRS_TO_CHECK_PER_REPO /\
  List.length (repeat pr_merged 30) <= 30 /\
  List.length (repeat pr_merged 30) <= List.length (closed_pulls repo31).
Proof.
  apply (crawl_is_a_bounded_prefix 30 repo31 (repeat pr_merged 30)).
  reflexivity.
Defined.

(** X14.  When the page request succeeds and the repository's closed pull
    requests fit on one page, the crawl returns the first
    PRS_TO_CHECK_PER_REPO of them: min(PRS_TO_CHECK_PER_REPO, number of
    closed pull requests) items. *)
Theorem crawl_of_a_one_page_repository (per_page : nat) (repo : Repository) :
  pulls_failure repo = None ->
  List.length (closed_pulls repo) <= per_page ->
  exists prs,
    crawl per_page repo = Ok prs /\
    prs = firstn PRS_TO_CHECK_PER_REPO (closed_pulls repo) /\
    List.length prs
    = Nat.min PRS_TO_CHECK_PER_REPO (List.length (closed_pulls repo)).
Proof.
  intros Hok Hfit. eexists. split; [|split; [reflexivity|]].
  - rewrite crawl_unfold, Hok. f_equal.
    rewrite <- (firstn_firstn (closed_pulls repo) PRS_TO_CHECK_PER_REPO per_page).
    rewrite (firstn_all2 (n := per_page)) by assumption. reflexivity.
  - apply length_firstn.
Qed.

Lemma crawl_of_a_one_page_repository_witness :
  exists prs,
    crawl 30 (repo_of [pr_deleted; pr_unmerged; pr_merged]) = Ok prs /\
    prs = firstn PRS_TO_CHECK_PER_REPO [pr_deleted; pr_unmerged; pr_merged] /\
    List.length prs = Nat.min PRS_TO_CHECK_PER_REPO 3.
Proof.
  apply (crawl_of_a_one_page_repository 30
           (repo_of [pr_deleted; pr_unmerged; pr_merged])).
  - reflexivity.
  - simpl. lia.
Defined.

(** ** The reactions of the imported client *)

(** X15.  When the reactions of every comment that the listings of the
    targets yield are a dict, as the imported client gives them, a run
    that got past the credential and the authentication writes nothing:
    the output file is left empty and the summary prints a total of 0. *)
Theorem raw_reactions_write_nothing (json_dumps : PyVal -> string)
    (per_page : nat) (W : World) (login : string)
    (previous : option (list string)) :
  truthy (GITHUB_PAT W) = true -> get_user_login W = Ok login ->
  (forall repo_name repo pr comment,
      In repo_name TARGET_REPOS -> get_repo W repo_name = Ok repo ->
      In pr (closed_pulls repo) ->
      In comment (yielded (get_review_comments pr)) ->
      exists d, reactions comment = RawDict d) ->
  writes (run json_dumps per_page W) = [] /\
  file_after previous (run json_dumps per_page W) = Some [] /\
  In (Print (MsgTotal 0)) (run json_dumps per_page W).
Proof.
  intros Htoken Hauth Hraw.
  assert (Hw : writes (run json_dumps per_page W) = []).
  { destruct (writes (run json_dumps per_page W)) as [|chunk rest] eqn:E;
      [reflexivity|].
    assert (Hin : In (Write chunk) (run json_dumps per_page W))
      by (apply in_writes; rewrite E; left; reflexivity).
    apply run_write_provenance in Hin.
    destruct Hin as (name & repo & pr & a & c & b & total & plus & Hname
                     & Hrepo & Hpr & _ & _ & Hc & _ & _ & _ & _ & _ & Hr & _).
    destruct (Hraw name repo pr c Hname Hrepo Hpr Hc) as [d Hd]. congruence. }
  split; [exact Hw|]. split.
  - rewrite (file_after_started _ _ _ login previous Htoken Hauth), Hw.
    reflexivity.
  - apply (run_print json_dumps per_page W login _ Htoken Hauth).
    rewrite Hw. auto 6.
Qed.

Lemma raw_reactions_write_nothing_witness :
  writes (run sample_dumps 30 world_scenario_E_raw) = [] /\
  file_after (Some ["a line of an earlier run"])
    (run sample_dumps 30 world_scenario_E_raw) = Some [] /\
  In (Print (MsgTotal 0)) (run sample_dumps 30 world_scenario_E_raw).
Proof.
  apply (raw_reactions_write_nothing sample_dumps 30 world_scenario_E_raw
           "curator"); try reflexivity.
  intros name repo pr c _ Hrepo Hpr Hc. injection Hrepo as <-.
  destruct Hpr as [<-|[<-|[]]].
  - destruct Hc.
  - destruct Hc as [<-|[]]. eexists. reflexivity.
Defined.

(** ** Failures of a comment listing *)

Lemma accepted_until (pr_author : string) (earlier later : list Comment)
    (comment : Comment) (e : Exn) :
  (forall c ex, In c earlier -> is_high_quality c pr_author <> Raise ex) ->
  is_high_quality comment pr_author = Raise e ->
  accepted pr_author (earlier ++ comment :: later)
  = accepted pr_author earlier /\
  filter_failure pr_author (earlier ++ comment :: later) = Some e.
Proof.
  intros Hb Hq. induction earlier as [|c earlier IH];
    cbn [app accepted filter_failure].
  - rewrite Hq. split; reflexivity.
  - destruct IH as [IHa IHf];
      [intros c' ex Hc'; apply Hb; right; assumption|].
    destruct (is_high_quality c pr_author) as [[|]|ex] eqn:Hc.
    + rewrite IHa. split; [reflexivity | assumption].
    + split; assumption.
    + exfalso. apply (Hb c ex (or_introl eq_refl)). assumption.
Qed.

(** X16.  When the comment listing of a merged pull request raises, and
    the filter raised on none of the comments it yielded, the turn of the
    pull request keeps the records written so far, prints one line with
    the number of the pull request ("Skipping PR" for status 404, an error
    line otherwise), takes the delay and returns; the loop goes on with
    the next pull request. *)
Theorem listing_failure_is_local (json_dumps : PyVal -> string)
    (pr : PullRequest) (pr_author : string) (e : Exn)
    (after : list PullRequest) (s : State) :
  merged pr = Ok true -> pr_user pr = Ok pr_author ->
  (forall c ex,
      In c (yielded (get_review_comments pr)) ->
      is_high_quality c pr_author <> Raise ex) ->
  raised (get_review_comments pr) = Some e ->
  exists m,
    (e = GithubException 404 -> m = MsgSkippingPR (number pr)) /\
    (e <> GithubException 404 ->
     m = MsgApiErrorPR (number pr) e \/ m = MsgErrorPR (number pr) e) /\
    process_pr json_dumps pr s
    = (Ok tt,
       add_events
         (map Write
            (gold_chunks json_dumps pr_author
               (yielded (get_review_comments pr)))
          ++ [Print m; Sleep SLEEP_MS]) s) /\
    for_each (pr :: after) (process_pr json_dumps) s
    = for_each after (process_pr json_dumps)
        (add_events
           (map Write
              (gold_chunks json_dumps pr_author
                 (yielded (get_review_comments pr)))
            ++ [Print m; Sleep SLEEP_MS]) s).
Proof.
  intros Hm Hu Hf Hr. exists (pr_message pr e).
  split; [intros ->; reflexivity|]. split; [apply pr_message_cases|].
  assert (Hturn : process_pr json_dumps pr s
                  = (Ok tt,
                     add_events
                       (map Write
                          (gold_chunks json_dumps pr_author
                             (yielded (get_review_comments pr)))
                        ++ [Print (pr_message pr e); Sleep SLEEP_MS]) s)).
  { rewrite process_pr_run. unfold pr_raises, pr_events, listing_failure.
    rewrite Hm, Hu, (proj2 (filter_failure_none _ _) Hf), Hr. reflexivity. }
  split; [exact Hturn|].
  cbn [for_each]. rewrite (bind_run _ Hturn). reflexivity.
Qed.

Lemma listing_failure_is_local_witness :
  exists m,
    (GithubException 502 = GithubException 404 ->
     m = MsgSkippingPR (number pr_broken)) /\
    (GithubException 502 <> GithubException 404 ->
     m = MsgApiErrorPR (number pr_broken) (GithubException 502) \/
     m = MsgErrorPR (number pr_broken) (GithubException 502)) /\
    process_pr sample_dumps pr_broken init
    = (Ok tt,
       add_events
         (map Write
            (gold_chunks sample_dumps "alice"
               (yielded (get_review_comments pr_broken)))
          ++ [Print m; Sleep SLEEP_MS]) init) /\
    for_each (pr_broken :: [pr_merged]) (process_pr sample_dumps) init
    = for_each [pr_merged] (process_pr sample_dumps)
        (add_events
           (map Write
              (gold_chunks sample_dumps "alice"
                 (yielded (get_review_comments pr_broken)))
            ++ [Print m; Sleep SLEEP_MS]) init).
Proof.
  apply (listing_failure_is_local sample_dumps pr_broken "alice"
           (GithubException 502) [pr_merged] init); try reflexivity.
  intros c ex [<-|[]]. discriminate.
Defined.

(** X17.  When the listing of a merged pull request yields a comment that
    passes the first three tests of the filter and whose reactions are a
    dict, the comment loop ends there with AttributeError: the records
    accepted before it are kept, the comments after it are not looked at,
    the handler of line 112 prints the error line with the number of the
    pull request, the delay is taken and the turn returns. *)
Theorem filter_error_ends_the_comment_loop (json_dumps : PyVal -> string)
    (pr : PullRequest) (pr_author b : string) (d : list (string * Z))
    (comment : Comment) (earlier later : list Comment) (s : State) :
  merged pr = Ok true -> pr_user pr = Ok pr_author ->
  yielded (get_review_comments pr) = (earlier ++ comment :: later)%list ->
  (forall c ex, In c earlier -> is_high_quality c pr_author <> Raise ex) ->
  body comment = Some b -> b <> EmptyString -> 50 < String.length b ->
  user comment <> pr_author -> reactions comment = RawDict d ->
  process_pr json_dumps pr s
  = (Ok tt,
     add_events
       (map Write (gold_chunks json_dumps pr_author earlier)
        ++ [Print (MsgErrorPR (number pr) attribute_error); Sleep SLEEP_MS])
       s).
Proof.
  intros Hm Hu Hy Hb Hbody Hne Hlen Huser Hd.
  assert (Hq : is_high_quality comment pr_author = Raise attribute_error).
  { apply is_high_quality_raises. split; [reflexivity|]. exists b, d. tauto. }
  destruct (accepted_until pr_author earlier later comment _ Hb Hq)
    as [Ha Hf].
  rewrite process_pr_run. unfold pr_raises, pr_events, listing_failure,
    gold_chunks.
  rewrite Hm, Hu, Hy, Ha, Hf. reflexivity.
Qed.

Lemma filter_error_ends_the_comment_loop_witness :
  process_pr sample_dumps pr_mixed init
  = (Ok tt,
     add_events
       (map Write (gold_chunks sample_dumps "alice" [gold_comment])
        ++ [Print (MsgErrorPR (number pr_mixed) attribute_error);
            Sleep SLEEP_MS]) init).
Proof.
  apply (filter_error_ends_the_comment_loop sample_dumps pr_mixed "alice"
           body80
           match raw_reactions 3 3 with RawDict d => d | Counts _ _ => [] end
           raw_gold_comment [gold_comment] [gold_comment] init);
    try reflexivity.
  - intros c ex [<-|[]]. discriminate.
  - discriminate.
  - simpl. lia.
  - discriminate.
Defined.
